(** * neuro-toolkit: landmark-delta scoring, capture window and speech analysis

    A shallow embedding of the three tools of the repository:

    - [FacialNerve]  : [projects/facial_nerve.py]  (baseline store, task
      selection, per-frame symmetry scoring);
    - [NeuroSteady]  : [projects/neuro_steady.py]  (capture window, trajectory
      buffer, batch statistics);
    - [Dysarthria]   : [projects/dysarthria.py]    (acoustic metrics behind a
      catch-all exception handler).

    Python integers are [Z].  The quotient of two Python integers is kept as
    an exact rational ([Q]); wall-clock time stamps are rationals as well.
    Values that go through [math.sqrt] / [numpy.sqrt] are real numbers ([R]).
    Dictionaries with string keys are [gmap string _]; a failing lookup or a
    division by zero raises, which the embedding records in [result]. *)

From Stdlib Require Import ZArith QArith Qround Reals Lra Lia List.
From Stdlib Require Import String.
From stdpp Require Import gmap strings list fin_maps.

(** ** Python exceptions raised by the modelled code *)

Inductive exn : Type :=
  | KeyError (key : string)
  | ZeroDivisionError
  | IndexError
  | Exception (text : string).

Inductive result (A : Type) : Type :=
  | Ok (a : A)
  | Raise (e : exn).
Arguments Ok {A} a.
Arguments Raise {A} e.

#[global] Instance result_ret : MRet result := fun A a => Ok a.
#[global] Instance result_bind : MBind result :=
  fun A B f m => match m with Ok a => f a | Raise e => Raise e end.

(** [try: body except Exception as e: handler e] *)
Definition try_except {A} (body : result A) (handler : exn -> result A) : result A :=
  match body with
  | Ok a => Ok a
  | Raise e => handler e
  end.

(** [d[k]] on a dictionary. *)
Definition getitem {V} (d : gmap string V) (k : string) : result V :=
  match d !! k with
  | Some v => Ok v
  | None => Raise (KeyError k)
  end.

(** [a / b] on two Python integers: true division, exact here. *)
Definition truediv (a b : Z) : result Q :=
  if (b =? 0)%Z then Raise ZeroDivisionError else Ok (inject_Z a / inject_Z b)%Q.

(** [int(x)]: truncation towards zero. *)
Definition py_int (x : Q) : Z :=
  if Qle_bool 0 x then Qfloor x else Qceiling x.

(** [a < b] on rationals, as a boolean. *)
Definition Qlt_bool (a b : Q) : bool := negb (Qle_bool b a).

Definition point : Type := (Z * Z)%type.

(* ===================================================================== *)
(** ** projects/facial_nerve.py *)
(* ===================================================================== *)

Module FacialNerve.

(** Landmark indices for facial nerve assessment (lines 16-26), in the
    insertion order of the dictionary literal. *)
Definition FACIAL_LANDMARKS : list (string * nat) :=
  [ ("mouth_left", 291%nat); ("mouth_right", 61%nat);
    ("eyebrow_left", 334%nat); ("eyebrow_right", 105%nat);
    ("eye_top_left", 386%nat); ("eye_bottom_left", 374%nat);
    ("eye_top_right", 159%nat); ("eye_bottom_right", 145%nat);
    ("nose_tip", 1%nat) ].

(** One normalised landmark of the detector ([lm.x], [lm.y]). *)
Record landmark : Type := { lm_x : Q; lm_y : Q }.

(** A detected face: the detector returns the whole mesh, so every index of
    [FACIAL_LANDMARKS] is in range of [landmarks.landmark]. *)
Definition face_landmarks : Type := nat -> landmark.

(** A frame after [face_mesh.process]: the image shape and
    [results.multi_face_landmarks] ([None] and the empty list are both
    falsy and both [[]] here). *)
Record frame : Type := {
  frame_w : Z;
  frame_h : Z;
  multi_face_landmarks : list face_landmarks
}.

(** Session state and transformer attribute: [st.session_state.baseline_coords]
    and [self.task]. *)
Record state : Type := {
  baseline_coords : option (gmap string point);
  task : string
}.

(** [st.session_state.baseline_coords = None] at import, [self.task = "None"]
    in [__init__]. *)
Definition init : state := {| baseline_coords := None; task := "None" |}.

(** The texts drawn with [cv2.putText]; colours, fonts and positions are left
    out, the numbers are kept unformatted. *)
Inductive text : Type :=
  | BaselineSetMsg                        (* "Baseline Set!" *)
  | SmileSymmetry (symmetry : Q)          (* f"Smile Symmetry: {symmetry:.1f}%" *)
  | EyebrowSymmetry (symmetry : Q)        (* f"Eyebrow Symmetry: {symmetry:.1f}%" *)
  | EyeClosureHeader                      (* "Eye Closure (Smaller is better)" *)
  | EyeClosureValues (left_opening right_opening : R).
                                          (* f"Left: {..:.1f} Right: {..:.1f}" *)

(** [set_task] (lines 35-38). *)
Definition set_task (st : state) (new_task : string) : state :=
  if bool_decide (new_task = "Set Baseline")
  then {| baseline_coords := None; task := new_task |}
  else {| baseline_coords := baseline_coords st; task := new_task |}.

(** [_get_coords] (lines 40-42). *)
Definition _get_coords (landmarks : face_landmarks) (idx : nat) (w h : Z) : point :=
  let lm := landmarks idx in
  (py_int (lm_x lm * inject_Z w), py_int (lm_y lm * inject_Z h)).

(** [_get_dist] (lines 44-45). *)
Definition _get_dist (p1 p2 : point) : R :=
  sqrt (IZR ((p1.1 - p2.1) ^ 2 + (p1.2 - p2.2) ^ 2)).

(** The loop of lines 58-60 that fills [coords]. *)
Definition get_all_coords (landmarks : face_landmarks) (w h : Z) : gmap string point :=
  foldl (fun coords '(name, idx) => <[name := _get_coords landmarks idx w h]> coords)
        ∅ FACIAL_LANDMARKS.

(** Lines 78-79: horizontal excursion of the mouth corners. *)
Definition smile_dists (coords baseline : gmap string point) : result (Z * Z) :=
  cl ← getitem coords "mouth_left";
  bl ← getitem baseline "mouth_left";
  let left_dist := Z.abs (cl.1 - bl.1) in
  cr ← getitem coords "mouth_right";
  br ← getitem baseline "mouth_right";
  let right_dist := Z.abs (cr.1 - br.1) in
  Ok (left_dist, right_dist).

(** Lines 87-88: vertical excursion of the eyebrows (signed). *)
Definition eyebrow_raises (coords baseline : gmap string point) : result (Z * Z) :=
  bl ← getitem baseline "eyebrow_left";
  cl ← getitem coords "eyebrow_left";
  let left_raise := (bl.2 - cl.2)%Z in
  br ← getitem baseline "eyebrow_right";
  cr ← getitem coords "eyebrow_right";
  let right_raise := (br.2 - cr.2)%Z in
  Ok (left_raise, right_raise).

(** Lines 96-97: eyelid gaps of the current frame. *)
Definition eye_openings (coords : gmap string point) : result (R * R) :=
  tl ← getitem coords "eye_top_left";
  bl ← getitem coords "eye_bottom_left";
  let left_opening := _get_dist tl bl in
  tr ← getitem coords "eye_top_right";
  br ← getitem coords "eye_bottom_right";
  let right_opening := _get_dist tr br in
  Ok (left_opening, right_opening).

(** Lines 82 and 91: [min(l, r) / max(l, r) * 100] on integers. *)
Definition symmetry_of (l r : Z) : result Q :=
  q ← truediv (Z.min l r) (Z.max l r);
  Ok (q * 100)%Q.

(** Line 100: the same expression on floats; its value is not drawn, only a
    division by zero would show. *)
Definition symmetry_of_R (l r : R) : result R :=
  if Req_dec_T (Rmax l r) 0 then Raise ZeroDivisionError
  else Ok (Rmin l r / Rmax l r * 100)%R.

(** The body of [transform] under [if results.multi_face_landmarks:], once
    [coords] is filled (lines 69-102).  Returns the new state and the texts
    drawn on the frame. *)
Definition transform_detected (st : state) (coords : gmap string point)
  : result (state * list text) :=
  let '(st1, drawn) :=
    if bool_decide (task st = "Set Baseline")
    then ({| baseline_coords := Some coords; task := task st |}, [BaselineSetMsg])
    else (st, []) in
  match baseline_coords st1 with
  | None => Ok (st1, drawn)
  | Some baseline =>
      if bool_decide (task st1 = "Smile") then
        '(left_dist, right_dist) ← smile_dists coords baseline;
        if (10 <? left_dist + right_dist)%Z then
          symmetry ← symmetry_of left_dist right_dist;
          Ok (st1, drawn ++ [SmileSymmetry symmetry])
        else Ok (st1, drawn)
      else if bool_decide (task st1 = "Raise Eyebrows") then
        '(left_raise, right_raise) ← eyebrow_raises coords baseline;
        if (5 <? left_raise + right_raise)%Z then
          symmetry ← symmetry_of left_raise right_raise;
          Ok (st1, drawn ++ [EyebrowSymmetry symmetry])
        else Ok (st1, drawn)
      else if bool_decide (task st1 = "Close Eyes Tightly") then
        '(left_opening, right_opening) ← eye_openings coords;
        if Rgt_dec (left_opening + right_opening) 0 then
          _ ← symmetry_of_R left_opening right_opening;
          Ok (st1, drawn ++ [EyeClosureHeader;
                             EyeClosureValues left_opening right_opening])
        else Ok (st1, drawn)
      else Ok (st1, drawn)
  end.

(** [transform] (lines 47-104). *)
Definition transform (st : state) (fr : frame) : result (state * list text) :=
  match multi_face_landmarks fr with
  | [] => Ok (st, [])
  | landmarks :: _ =>
      transform_detected st (get_all_coords landmarks (frame_w fr) (frame_h fr))
  end.

(** Frames handled one after the other; the texts of the last frame are the
    ones on screen. *)
Fixpoint transform_all (st : state) (frames : list frame) : result state :=
  match frames with
  | [] => Ok st
  | fr :: rest =>
      '(st', _) ← transform st fr;
      transform_all st' rest
  end.

(** A drawn text that carries a score of the active task: the ratio for
    Smile and Raise Eyebrows, the raw left/right gaps for Close Eyes Tightly. *)
Definition is_score (t : text) : bool :=
  match t with
  | SmileSymmetry _ | EyebrowSymmetry _ | EyeClosureValues _ _ => true
  | BaselineSetMsg | EyeClosureHeader => false
  end.

(** *** Snapshots that come from a frame *)

(** [m] is the [coords] dictionary of some frame. *)
Definition is_snapshot (m : gmap string point) : Prop :=
  exists landmarks w h, m = get_all_coords landmarks w h.

(** The baseline store is empty or holds the [coords] of an earlier frame:
    line 70 is its only assignment besides [None]. *)
Definition baseline_from_frame (st : state) : Prop :=
  match baseline_coords st with
  | None => True
  | Some b => is_snapshot b
  end.

(** *** Tasks and concrete inputs referred to by the properties *)

(** The tasks that score a frame. *)
Definition scoring_tasks : list string :=
  ["Smile"; "Raise Eyebrows"; "Close Eyes Tightly"].

(** A frame in which no face is detected. *)
Definition faceless (dims : Z * Z) : frame :=
  {| frame_w := dims.1; frame_h := dims.2; multi_face_landmarks := [] |}.

(** The scenario of the specification: the mouth corners move by 10 and 20
    pixels. *)
Definition scenario_baseline : gmap string point :=
  {[ "mouth_left" := (100, 200)%Z; "mouth_right" := (300, 200)%Z ]}.
Definition scenario_current : gmap string point :=
  {[ "mouth_left" := (90, 200)%Z; "mouth_right" := (320, 200)%Z ]}.

(** Only the right mouth corner moves. *)
Definition one_sided_smile : gmap string point :=
  {[ "mouth_left" := (100, 200)%Z; "mouth_right" := (311, 200)%Z ]}.

(** The left eyebrow sinks by 5 pixels while the right one rises by 20. *)
Definition brows_baseline : gmap string point :=
  {[ "eyebrow_left" := (200, 100)%Z; "eyebrow_right" := (400, 100)%Z ]}.
Definition brows_current : gmap string point :=
  {[ "eyebrow_left" := (200, 105)%Z; "eyebrow_right" := (400, 80)%Z ]}.

(** A detected face whose landmarks all sit at (1/2, 1/4). *)
Definition whole_face : face_landmarks :=
  fun idx => {| lm_x := 1 # 2; lm_y := 1 # 4 |}.

(** *** A whole session: task selections and frames, in the order they
    happen *)

(** [run] hands the selected task to [set_task] (line 134); the video
    pipeline hands each frame to [transform]. *)
Inductive event : Type :=
  | Select (new_task : string)
  | Frame (fr : frame).

Definition step (st : state) (ev : event) : result state :=
  match ev with
  | Select new_task => Ok (set_task st new_task)
  | Frame fr => '(st', _) ← transform st fr; Ok st'
  end.

Fixpoint session (st : state) (events : list event) : result state :=
  match events with
  | [] => Ok st
  | ev :: rest => st' ← step st ev; session st' rest
  end.

(** The [coords] of a frame, when a face is detected in it. *)
Definition frame_coords (fr : frame) : option (gmap string point) :=
  match multi_face_landmarks fr with
  | [] => None
  | landmarks :: _ => Some (get_all_coords landmarks (frame_w fr) (frame_h fr))
  end.

(** The [coords] of the last frame of [frames] that shows a face. *)
Fixpoint last_face (frames : list frame) : option (gmap string point) :=
  match frames with
  | [] => None
  | fr :: rest =>
      match last_face rest with
      | Some coords => Some coords
      | None => frame_coords fr
      end
  end.

(** The event selects "Set Baseline". *)
Definition selects_baseline (ev : event) : Prop :=
  match ev with
  | Select new_task => new_task = "Set Baseline"
  | Frame _ => False
  end.


(** Both eyes shut to the pixel. *)
Definition shut_eyes : gmap string point :=
  {[ "eye_top_left" := (10, 20)%Z; "eye_bottom_left" := (10, 20)%Z;
     "eye_top_right" := (30, 20)%Z; "eye_bottom_right" := (30, 20)%Z ]}.

End FacialNerve.

(* ===================================================================== *)
(** ** projects/neuro_steady.py *)
(* ===================================================================== *)

Module NeuroSteady.

(** The target for the "hold steady" task (lines 20-21). *)
Definition TARGET_POS : point := (320, 240)%Z.
Definition TARGET_RADIUS : Z := 20.

(** The attributes of a [DexterityTransformer]. *)
Record DexterityTransformer : Type := {
  task : string;
  start_time : option Q;
  tracking : bool
}.

(** [__init__] (lines 24-27). *)
Definition init : DexterityTransformer :=
  {| task := "None"; start_time := None; tracking := false |}.

(** What one script run and the frame callback share: the list
    [st.session_state.points] and the transformer [ctx.video_transformer]
    ([None] while the stream is not playing). *)
Record world : Type := {
  points : list point;
  video_transformer : option DexterityTransformer
}.

(** [set_task] (lines 29-36); [now] is the value of [time.time()]. *)
Definition set_task (self : DexterityTransformer) (pts : list point)
    (new_task : string) (now : Q) : DexterityTransformer * list point :=
  let tracking := bool_decide (new_task = "Hold Steady") in
  if tracking
  then ({| task := new_task; start_time := Some now; tracking := tracking |}, [])
  else ({| task := new_task; start_time := None; tracking := tracking |}, pts).

(** Truth value of [self.start_time]: [None] and [0.0] are falsy. *)
Definition truthy (t : option Q) : bool :=
  match t with
  | None => false
  | Some t => negb (Qeq_bool t 0)
  end.

(** Lines 49: [self.start_time and (time.time() - self.start_time) > 10]. *)
Definition expired (self : DexterityTransformer) (now : Q) : bool :=
  match start_time self with
  | None => false
  | Some t0 => truthy (Some t0) && Qlt_bool 10 (now - t0)
  end.

(** [transform] (lines 38-82) on the state it touches: [now] is
    [time.time()], [hand] the pixel position [(cx, cy)] of the index finger
    tip when [results.multi_hand_landmarks] is truthy.  The drawing calls do
    not touch the state and are left out. *)
Definition transform (self : DexterityTransformer) (pts : list point)
    (now : Q) (hand : option point) : DexterityTransformer * list point :=
  let self1 :=
    if bool_decide (task self = "Hold Steady") then
      if expired self now
      then {| task := "None"; start_time := None; tracking := false |}
      else self
    else self in
  match hand with
  | Some p =>
      if tracking self1 then (self1, pts ++ [p]) else (self1, pts)
  | None => (self1, pts)
  end.

(** The frame callback on the shared world; without a transformer no frame
    is processed. *)
Definition on_frame (w : world) (now : Q) (hand : option point) : world :=
  match video_transformer w with
  | None => w
  | Some self =>
      let '(self', pts') := transform self (points w) now hand in
      {| points := pts'; video_transformer := Some self' |}
  end.

Definition on_frames (w : world) (frames : list (Q * option point)) : world :=
  foldl (fun w '(now, hand) => on_frame w now hand) w frames.

(** *** Batch statistics (lines 124-133), over the reals

    [np.array] holds the points as machine integers; pixel coordinates are
    far from the range where their squares would wrap, and the integers are
    taken as they are. *)

Definition Rsum (l : list R) : R := fold_right Rplus 0%R l.

(** [np.mean] *)
Definition np_mean (l : list R) : R := (Rsum l / INR (length l))%R.

(** [np.std]: [sqrt(mean(abs(x - x.mean())**2))] *)
Definition np_std (l : list R) : R :=
  sqrt (np_mean (map (fun x => (Rabs (x - np_mean l) ^ 2)%R) l)).

(** [points[:, 0]] and [points[:, 1]] *)
Definition column0 (pts : list point) : list R := map (fun p => IZR p.1) pts.
Definition column1 (pts : list point) : list R := map (fun p => IZR p.2) pts.

Definition steadiness_score (pts : list point) : R :=
  let std_x := np_std (column0 pts) in
  let std_y := np_std (column1 pts) in
  np_mean [std_x; std_y].

(** [np.sqrt((p[0] - TARGET_POS[0])**2 + (p[1] - TARGET_POS[1])**2)] *)
Definition distance_to_target (p : point) : R :=
  sqrt (IZR ((p.1 - TARGET_POS.1) ^ 2 + (p.2 - TARGET_POS.2) ^ 2)).

Definition precision_score (pts : list point) : R :=
  let distances := map distance_to_target pts in
  np_mean distances.

(** What the "Analyze Results" button shows: the warning, or the two
    metrics (the path image is left out). *)
Inductive report : Type :=
  | NoTrackingData
  | AnalysisResults (steadiness_score precision_score : R).

Definition analyze (pts : list point) : report :=
  match pts with
  | [] => NoTrackingData
  | _ :: _ => AnalysisResults (steadiness_score pts) (precision_score pts)
  end.

(** One execution of [run] (lines 100-133): [selected] is the value of the
    select box, [start_clicked] and [analyze_clicked] the two buttons, [t1]
    and [t2] the clock readings inside [set_task] and the start button
    branch. *)
Definition run (w : world) (selected : string)
    (start_clicked analyze_clicked : bool) (t1 t2 : Q) : world * option report :=
  let w1 :=
    match video_transformer w with
    | None => w
    | Some self =>
        let '(self1, pts1) := set_task self (points w) selected t1 in
        if start_clicked
        then {| points := [];
                video_transformer :=
                  Some {| task := task self1; start_time := Some t2; tracking := true |} |}
        else {| points := pts1; video_transformer := Some self1 |}
    end in
  (w1, if analyze_clicked then Some (analyze (points w1)) else None).

(** *** Concrete states referred to by the properties *)

(** A "Hold Steady" capture started at time 100. *)
Definition holding : DexterityTransformer :=
  {| task := "Hold Steady"; start_time := Some 100%Q; tracking := true |}.

(** Tracking switched on by the start button at time 100 while the select
    box shows "None". *)
Definition button_started : DexterityTransformer :=
  {| task := "None"; start_time := Some 100%Q; tracking := true |}.

(** The stream is playing, nothing recorded yet. *)
Definition streaming : world := {| points := []; video_transformer := Some init |}.

Definition nonneg (x : R) : Prop := (0 <= x)%R.

(** *** The overlay drawn on a frame (lines 45-80) *)

Inductive colour : Type := Green | Red.

Inductive shape : Type :=
  | TargetOutline                (* line 47: the target circle, thickness 2 *)
  | FingerDot (p : point)        (* line 63: the dot at the fingertip *)
  | TargetFilled (c : colour)    (* lines 73 and 76: the filled target *)
  | HandSkeleton.                (* line 80: [mp_drawing.draw_landmarks] *)

(** Lines 70-76: [dist <= TARGET_RADIUS] picks the colour. *)
Definition target_colour (p : point) : colour :=
  if Rle_dec (distance_to_target p) (IZR TARGET_RADIUS) then Green else Red.

(** The attributes of the transformer after lines 45-53. *)
Definition after_expiry (self : DexterityTransformer) (now : Q) : DexterityTransformer :=
  if bool_decide (task self = "Hold Steady") then
    if expired self now
    then {| task := "None"; start_time := None; tracking := false |}
    else self
  else self.

(** The shapes [transform] draws on the frame, in drawing order. *)
Definition overlay (self : DexterityTransformer) (now : Q) (hand : option point)
  : list shape :=
  let self1 := after_expiry self now in
  (if bool_decide (task self = "Hold Steady") then [TargetOutline] else []) ++
  match hand with
  | Some p =>
      if tracking self1 then
        FingerDot p ::
        (if bool_decide (task self1 = "Hold Steady")
         then [TargetFilled (target_colour p)] else [])
      else [HandSkeleton]
  | None => []
  end.

(** *** The frames of a capture that fall inside its window *)

(** The frames up to, and without, the first one with [now - t0 > 10]. *)
Fixpoint open_frames (t0 : Q) (frames : list (Q * option point))
  : list (Q * option point) :=
  match frames with
  | [] => []
  | (now, hand) :: rest =>
      if Qlt_bool 10 (now - t0) then [] else (now, hand) :: open_frames t0 rest
  end.

(** *** The path image (lines 146-156) *)

Inductive path_shape : Type :=
  | PathTarget                       (* line 149 *)
  | PathLine (pts : list point)      (* line 152: [cv2.polylines] *)
  | StartDot (p : point)             (* line 153: blue *)
  | EndDot (p : point).              (* line 154: red *)

(** [points[0]] and [points[-1]] raise on an empty array. *)
Definition path_image (pts : list point) : result (list path_shape) :=
  let line := if (1 <? Z.of_nat (length pts))%Z then [PathLine pts] else [] in
  start ← match head pts with Some p => Ok p | None => Raise IndexError end;
  stop ← match last pts with Some p => Ok p | None => Raise IndexError end;
  Ok (PathTarget :: line ++ [StartDot start; EndDot stop]).

(** The "Analyze Results" branch with its image: the warning for an empty
    buffer, the metrics and the path otherwise. *)
Definition analyze_with_path (pts : list point)
  : result (report * list path_shape) :=
  match pts with
  | [] => Ok (NoTrackingData, [])
  | _ :: _ => img ← path_image pts; Ok (analyze pts, img)
  end.

(** No frame of [frames] is later than 10 seconds after [t0]. *)
Definition all_in_window (t0 : Q) (frames : list (Q * option point)) : bool :=
  forallb (fun frame => negb (Qlt_bool 10 (frame.1 - t0))) frames.

End NeuroSteady.

(* ===================================================================== *)
(** ** projects/dysarthria.py *)
(* ===================================================================== *)

Module Dysarthria.

(** [str(e)] for the exceptions of the embedding. *)
Definition exn_str (e : exn) : string :=
  match e with
  | KeyError k => "'" +:+ k +:+ "'"
  | ZeroDivisionError => "division by zero"
  | IndexError => "index out of range"
  | Exception text => text
  end.

(** [sub in s] on strings. *)
Fixpoint py_in (sub s : string) : bool :=
  String.prefix sub s ||
  match s with
  | EmptyString => false
  | String _ s' => py_in sub s'
  end.

(** The acoustic feature extractor, the audio loader and the number
    formatting, as interfaces: every call of the libraries may raise. *)
Class Toolkit : Type := {
  float : Type;
  Sound : Type;
  Pitch : Type;
  PointProcess : Type;
  Harmonicity : Type;
  Waveform : Type;
  (* arithmetic of floats; numpy division does not raise *)
  float_times_100 : float -> float;
  float_sub : float -> float -> float;
  int_div_float : Z -> float -> float;
  (* f"{x:.2f}", f"{x:.3f}" *)
  format_float : nat -> float -> string;
  format_int : nat -> Z -> string;
  (* parselmouth.Sound(audio_file) *)
  parselmouth_Sound : string -> result Sound;
  (* call(snd, "To Pitch", 0.0, 75, 600) *)
  To_Pitch : Sound -> result Pitch;
  (* call(pitch, "Get mean", 0, 0, "Hertz") *)
  Pitch_Get_mean : Pitch -> result float;
  (* call(snd, "To PointProcess (periodic, cc)", 75, 600) *)
  To_PointProcess : Sound -> result PointProcess;
  (* call(point_process, "Get jitter (local)", 0, 0, 0.0001, 0.02, 1.3) *)
  Get_jitter_local : PointProcess -> result float;
  (* call(point_process, "Get shimmer (local)", 0, 0, 0.0001, 0.02, 1.3, 1.6) *)
  Get_shimmer_local : PointProcess -> result float;
  (* call(snd, "To Harmonicity (cc)", 0.01, 75, 0.1, 1.0) *)
  To_Harmonicity : Sound -> result Harmonicity;
  (* call(harmonicity, "Get mean", 0, 0) *)
  Harmonicity_Get_mean : Harmonicity -> result float;
  (* librosa.load(audio_file) *)
  librosa_load : string -> result (Waveform * Z);
  (* librosa.onset.onset_detect(y=y, sr=sr, units='time') *)
  onset_detect : Waveform -> Z -> result (list float)
}.

Section AnalyzeSpeech.
Context `{Toolkit}.

(** A Python number: the DDK rate is a float or the integer [0]. *)
Inductive number : Type :=
  | PyInt (z : Z)
  | PyFloat (x : float).

Definition format_number (digits : nat) (n : number) : string :=
  match n with
  | PyInt z => format_int digits z
  | PyFloat x => format_float digits x
  end.

(** [onsets[0]] and [onsets[-1]] *)
Definition first_item (onsets : list float) : result float :=
  match head onsets with
  | Some x => Ok x
  | None => Raise IndexError
  end.

Definition last_item (onsets : list float) : result float :=
  match last onsets with
  | Some x => Ok x
  | None => Raise IndexError
  end.

(** Line 37:
    [(len(onsets) - 1) / (onsets[-1] - onsets[0]) if len(onsets) > 1 else 0] *)
Definition ddk_rate_of (onsets : list float) : result number :=
  if (1 <? Z.of_nat (length onsets))%Z then
    hi ← last_item onsets;
    lo ← first_item onsets;
    Ok (PyFloat (int_div_float (Z.of_nat (length onsets) - 1) (float_sub hi lo)))
  else Ok (PyInt 0).

Definition pitch_message : string :=
  "Could not detect a clear pitch. Please record again, speaking clearly and avoiding background noise.".

(** The dictionary returned on success (lines 39-45), in insertion order. *)
Definition metrics (mean_pitch jitter shimmer hnr : float) (ddk_rate : number)
  : list (string * string) :=
  [ ("Mean Pitch (F0)", format_float 2 mean_pitch +:+ " Hz");
    ("Jitter (Local)", format_float 3 jitter +:+ " %");
    ("Shimmer (Local)", format_float 3 shimmer +:+ " %");
    ("Harmonics-to-Noise (HNR)", format_float 2 hnr +:+ " dB");
    ("DDK Rate", format_number 2 ddk_rate +:+ " syllables/sec") ].

(** The body of the [try] (lines 17-45). *)
Definition analyze_speech_body (audio_file : string) : result (list (string * string)) :=
  snd ← parselmouth_Sound audio_file;
  pitch ← To_Pitch snd;
  mean_pitch ← Pitch_Get_mean pitch;
  point_process ← To_PointProcess snd;
  jitter_local ← Get_jitter_local point_process;
  let jitter := float_times_100 jitter_local in
  shimmer_local ← Get_shimmer_local point_process;
  let shimmer := float_times_100 shimmer_local in
  harmonicity ← To_Harmonicity snd;
  hnr ← Harmonicity_Get_mean harmonicity;
  '(y, sr) ← librosa_load audio_file;
  onsets ← onset_detect y sr;
  ddk_rate ← ddk_rate_of onsets;
  Ok (metrics mean_pitch jitter shimmer hnr ddk_rate).

(** The [except Exception as e] clause (lines 47-50). *)
Definition analyze_speech_handler (e : exn) : result (list (string * string)) :=
  if py_in "Pitch" (exn_str e)
  then Ok [("Error", pitch_message)]
  else Ok [("Error", "An error occurred: " +:+ exn_str e)].

(** [analyze_speech] (lines 15-50). *)
Definition analyze_speech (audio_file : string) : result (list (string * string)) :=
  try_except (analyze_speech_body audio_file) analyze_speech_handler.

End AnalyzeSpeech.

(** *** Two concrete sets of libraries *)

(** A toy rendering of rationals with a fixed number of decimals, good
    enough for the whole numbers and terminating decimals of the examples. *)
Definition digit_string (d : Z) : string :=
  String (Ascii.ascii_of_nat (48 + Z.to_nat d)) "".

Fixpoint natural_string (fuel : nat) (n : Z) : string :=
  match fuel with
  | O => ""
  | S fuel' =>
      if (n <? 10)%Z then digit_string n
      else natural_string fuel' (n / 10) +:+ digit_string (n mod 10)
  end.

Fixpoint decimals_string (digits : nat) (frac : Q) : string :=
  match digits with
  | O => ""
  | S digits' =>
      let scaled := (frac * 10)%Q in
      let d := Qfloor scaled in
      digit_string d +:+ decimals_string digits' (scaled - inject_Z d)%Q
  end.

Definition fixed_string (digits : nat) (x : Q) : string :=
  let whole := Qfloor x in
  natural_string 20 whole +:+ "." +:+ decimals_string digits (x - inject_Z whole)%Q.

(** Libraries over exact rationals in which every call succeeds: pitch 120,
    jitter 0.5, shimmer 3, HNR 20, onsets at 0.5, 1 and 1.5 seconds. *)
Definition quiet_room : Toolkit := {|
  float := Q;
  Sound := unit; Pitch := unit; PointProcess := unit;
  Harmonicity := unit; Waveform := unit;
  float_times_100 := fun x => (x * 100)%Q;
  float_sub := fun x y => (x - y)%Q;
  int_div_float := fun n x => (inject_Z n / x)%Q;
  format_float := fixed_string;
  format_int := fun digits z => fixed_string digits (inject_Z z);
  parselmouth_Sound := fun _ => Ok tt;
  To_Pitch := fun _ => Ok tt;
  Pitch_Get_mean := fun _ => Ok 120%Q;
  To_PointProcess := fun _ => Ok tt;
  Get_jitter_local := fun _ => Ok (1 # 2)%Q;
  Get_shimmer_local := fun _ => Ok 3%Q;
  To_Harmonicity := fun _ => Ok tt;
  Harmonicity_Get_mean := fun _ => Ok 20%Q;
  librosa_load := fun _ => Ok (tt, 22050%Z);
  onset_detect := fun _ _ => Ok [1 # 2; 1; 3 # 2]%Q
|}.

(** The same libraries, except that the pitch extraction raises. *)
Definition no_voice : Toolkit := {|
  float := Q;
  Sound := unit; Pitch := unit; PointProcess := unit;
  Harmonicity := unit; Waveform := unit;
  float_times_100 := fun x => (x * 100)%Q;
  float_sub := fun x y => (x - y)%Q;
  int_div_float := fun n x => (inject_Z n / x)%Q;
  format_float := fixed_string;
  format_int := fun digits z => fixed_string digits (inject_Z z);
  parselmouth_Sound := fun _ => Ok tt;
  To_Pitch := fun _ => Raise (Exception "To Pitch: Pitch analysis not performed.");
  Pitch_Get_mean := fun _ => Ok 120%Q;
  To_PointProcess := fun _ => Ok tt;
  Get_jitter_local := fun _ => Ok (1 # 2)%Q;
  Get_shimmer_local := fun _ => Ok 3%Q;
  To_Harmonicity := fun _ => Ok tt;
  Harmonicity_Get_mean := fun _ => Ok 20%Q;
  librosa_load := fun _ => Ok (tt, 22050%Z);
  onset_detect := fun _ _ => Ok [1 # 2; 1; 3 # 2]%Q
|}.

(** *** The page (lines 52-108) *)

(** Constants (lines 11-13). *)
Definition SAMPLE_RATE : Z := 44100.
Definition DURATION : Z := 5.
Definition AUDIO_FILENAME : string := "temp_user_audio.wav".

(** What the page keeps between script runs: the key [audio_recorded] of the
    session state ([None] while it was never set) and whether the audio file
    is on disk. *)
Record session : Type := {
  audio_recorded : option bool;
  file_on_disk : bool
}.

(** What the page shows. *)
Inductive widget : Type :=
  | Info                          (* "Recording... Speak 'pa-ta-ka' ..." *)
  | Success                       (* "Recording complete!" *)
  | AudioPlayer                   (* [st.audio(AUDIO_FILENAME)] *)
  | ErrorBox (text : string)      (* [st.error] *)
  | Warning                       (* "You must record your audio first!" *)
  | Subheader                     (* "Acoustic Analysis Results" *)
  | Metric (label value : string).

(** How the [try] of lines 74-86 ends: the sound device and the file
    writer are outside the program.  [DeviceFailed]: [sd.rec] or [sd.wait]
    raises.  [WriteFailed]: [wavfile.write] or a later call raises, and
    [file_left] says whether a file is left on disk. *)
Inductive recording_outcome : Type :=
  | Recorded
  | DeviceFailed (e : exn)
  | WriteFailed (e : exn) (file_left : bool).

Definition recording_error (e : exn) : widget :=
  ErrorBox ("Error during recording: " +:+ exn_str e +:+
            ". Please ensure your microphone is enabled in the browser.").

(** The "Start 5-Second Recording" branch (lines 73-90). *)
Definition record_clicked (s : session) (outcome : recording_outcome)
  : session * list widget :=
  match outcome with
  | Recorded =>
      ({| audio_recorded := Some true; file_on_disk := true |},
       [Info; Success; AudioPlayer])
  | DeviceFailed e =>
      ({| audio_recorded := Some false; file_on_disk := file_on_disk s |},
       [Info; recording_error e])
  | WriteFailed e file_left =>
      ({| audio_recorded := Some false; file_on_disk := file_left |},
       [Info; recording_error e])
  end.

(** [k in d] and [d[k]] on the returned dictionary. *)
Definition dict_has (k : string) (d : list (string * string)) : bool :=
  existsb (fun kv => String.eqb kv.1 k) d.

Fixpoint dict_get (k : string) (d : list (string * string)) : result string :=
  match d with
  | [] => Raise (KeyError k)
  | (k', v) :: rest => if String.eqb k' k then Ok v else dict_get k rest
  end.

Section Page.
Context `{Toolkit}.

(** The "Analyze Speech" branch (lines 92-108). *)
Definition analyze_clicked (s : session) : result (session * list widget) :=
  match audio_recorded s with
  | Some true =>
      results ← analyze_speech AUDIO_FILENAME;
      shown ← (if dict_has "Error" results
               then text ← dict_get "Error" results; Ok [ErrorBox text]
               else Ok (map (fun kv => Metric kv.1 kv.2) results));
      Ok ({| audio_recorded := Some false; file_on_disk := false |},
          Subheader :: shown)
  | _ => Ok (s, [Warning])
  end.

(** One script run of the page: at most the branch of the clicked button
    runs, the recording branch first. *)
Definition run (s : session) (recording : option recording_outcome)
    (analyze : bool) : result (session * list widget) :=
  let '(s1, shown1) :=
    match recording with
    | Some outcome => record_clicked s outcome
    | None => (s, [])
    end in
  if analyze
  then '(s2, shown2) ← analyze_clicked s1; Ok (s2, shown1 ++ shown2)
  else Ok (s1, shown1).

(** Script runs one after the other. *)
Fixpoint runs (s : session) (clicks : list (option recording_outcome * bool))
  : result session :=
  match clicks with
  | [] => Ok s
  | (recording, analyze) :: rest =>
      '(s', _) ← run s recording analyze; runs s' rest
  end.

End Page.

(** A session in which nothing was recorded yet; a file of an earlier
    session may still be on disk. *)
Definition fresh (file : bool) : session :=
  {| audio_recorded := None; file_on_disk := file |}.

(** The recording is marked as usable only when the audio file is on disk. *)
Definition recording_on_disk (s : session) : Prop :=
  audio_recorded s = Some true -> file_on_disk s = true.

End Dysarthria.

(* ===================================================================== *)
(** * Properties of the facial symmetry scorer *)
(* ===================================================================== *)

Module FacialNerveSpec.
Import FacialNerve.

(** ** The ratio [a / b * 100] of two integers, as a rational *)

Section RatioFacts.
Open Scope Q_scope.
Variables a b : Z.
Hypothesis b_pos : (0 < b)%Z.

Ltac ratio_arith rel :=
  destruct b as [|p|p]; try lia;
  unfold Qdiv, Qinv, Qmult, rel, inject_Z; simpl; lia.

Lemma ratio_le_100 : inject_Z a / inject_Z b * 100 <= 100 <-> (a <= b)%Z.
Proof using b_pos. ratio_arith Qle. Qed.

Lemma ratio_eq_100 : inject_Z a / inject_Z b * 100 == 100 <-> a = b.
Proof using b_pos. ratio_arith Qeq. Qed.

Lemma ratio_nonneg : 0 <= inject_Z a / inject_Z b * 100 <-> (0 <= a)%Z.
Proof using b_pos. ratio_arith Qle. Qed.

Lemma ratio_pos : 0 < inject_Z a / inject_Z b * 100 <-> (0 < a)%Z.
Proof using b_pos. ratio_arith Qlt. Qed.

Lemma ratio_gt_m100 : -100 < inject_Z a / inject_Z b * 100 <-> (- b < a)%Z.
Proof using b_pos. ratio_arith Qlt. Qed.
End RatioFacts.

Lemma symmetry_of_ok (l r : Z) :
  (0 < Z.max l r)%Z ->
  symmetry_of l r = Ok (inject_Z (Z.min l r) / inject_Z (Z.max l r) * 100)%Q.
Proof.
  intros H. unfold symmetry_of, truediv.
  destruct (Z.eqb_spec (Z.max l r) 0) as [E|_]; [lia|]. reflexivity.
Qed.

(** What the ratio of a metric pair with a positive larger side looks like. *)
Lemma symmetry_of_facts (l r : Z) :
  (0 < Z.max l r)%Z ->
  exists s : Q,
    symmetry_of l r = Ok s /\
    (s <= 100)%Q /\
    (s == 100 <-> l = r)%Q /\
    ((0 <= s)%Q <-> (0 <= l)%Z /\ (0 <= r)%Z) /\
    ((0 < s)%Q <-> (0 < l)%Z /\ (0 < r)%Z) /\
    ((0 < l + r)%Z -> (-100 < s)%Q).
Proof.
  intros Hmax. eexists. split; [apply symmetry_of_ok, Hmax|].
  split; [apply ratio_le_100; lia|].
  split; [rewrite ratio_eq_100 by lia; lia|].
  split; [rewrite ratio_nonneg by lia; lia|].
  split; [rewrite ratio_pos by lia; lia|].
  intros Hsum. apply ratio_gt_m100; lia.
Qed.

(** ** One frame with a face, task by task *)

Lemma transform_detected_smile st coords b l r :
  baseline_coords st = Some b -> task st = "Smile" ->
  smile_dists coords b = Ok (l, r) ->
  transform_detected st coords =
    if (10 <? l + r)%Z
    then s ← symmetry_of l r; Ok (st, [SmileSymmetry s])
    else Ok (st, []).
Proof.
  intros Hb Ht Hd. unfold transform_detected.
  rewrite Ht. simpl. rewrite Hb, Ht. simpl. rewrite Hd. simpl.
  destruct (10 <? l + r)%Z; [|reflexivity].
  destruct (symmetry_of l r); reflexivity.
Qed.

Lemma transform_detected_eyebrows st coords b l r :
  baseline_coords st = Some b -> task st = "Raise Eyebrows" ->
  eyebrow_raises coords b = Ok (l, r) ->
  transform_detected st coords =
    if (5 <? l + r)%Z
    then s ← symmetry_of l r; Ok (st, [EyebrowSymmetry s])
    else Ok (st, []).
Proof.
  intros Hb Ht Hd. unfold transform_detected.
  rewrite Ht. simpl. rewrite Hb, Ht. simpl. rewrite Hd. simpl.
  destruct (5 <? l + r)%Z; [|reflexivity].
  destruct (symmetry_of l r); reflexivity.
Qed.

Lemma transform_detected_eyes st coords b l r :
  baseline_coords st = Some b -> task st = "Close Eyes Tightly" ->
  eye_openings coords = Ok (l, r) ->
  transform_detected st coords =
    if Rgt_dec (l + r) 0
    then _ ← symmetry_of_R l r; Ok (st, [EyeClosureHeader; EyeClosureValues l r])
    else Ok (st, []).
Proof.
  intros Hb Ht Hd. unfold transform_detected.
  rewrite Ht. simpl. rewrite Hb, Ht. simpl. rewrite Hd. simpl.
  destruct (Rgt_dec (l + r) 0); [|reflexivity].
  destruct (symmetry_of_R l r); reflexivity.
Qed.

Lemma transform_detected_no_baseline st coords :
  baseline_coords st = None -> task st <> "Set Baseline" ->
  transform_detected st coords = Ok (st, []).
Proof.
  intros Hb Ht. unfold transform_detected.
  rewrite bool_decide_eq_false_2 by exact Ht. rewrite Hb. reflexivity.
Qed.

Lemma transform_detected_set_baseline st coords :
  task st = "Set Baseline" ->
  transform_detected st coords =
    Ok ({| baseline_coords := Some coords; task := "Set Baseline" |}, [BaselineSetMsg]).
Proof.
  intros Ht. unfold transform_detected. rewrite Ht. reflexivity.
Qed.

(** The metric pairs are what the source computes from the four points. *)
Lemma smile_dists_nonneg coords b l r :
  smile_dists coords b = Ok (l, r) -> (0 <= l)%Z /\ (0 <= r)%Z.
Proof.
  unfold smile_dists, getitem.
  destruct (coords !! "mouth_left"); [|discriminate].
  destruct (b !! "mouth_left"); [|discriminate].
  destruct (coords !! "mouth_right"); [|discriminate].
  destruct (b !! "mouth_right"); [|discriminate].
  simpl. intros [= <- <-]. lia.
Qed.

Lemma eye_openings_nonneg coords l r :
  eye_openings coords = Ok (l, r) -> (0 <= l)%R /\ (0 <= r)%R.
Proof.
  unfold eye_openings, getitem.
  destruct (coords !! "eye_top_left"); [|discriminate].
  destruct (coords !! "eye_bottom_left"); [|discriminate].
  destruct (coords !! "eye_top_right"); [|discriminate].
  destruct (coords !! "eye_bottom_right"); [|discriminate].
  simpl. intros [= <- <-]. split; apply sqrt_pos.
Qed.

Lemma symmetry_of_R_ok (l r : R) :
  (0 <= l)%R -> (0 <= r)%R -> (l + r > 0)%R ->
  symmetry_of_R l r = Ok (Rmin l r / Rmax l r * 100)%R.
Proof.
  intros Hl Hr Hs. unfold symmetry_of_R.
  destruct (Req_dec_T (Rmax l r) 0) as [E|_]; [|reflexivity].
  exfalso. pose proof (Rmax_l l r). pose proof (Rmax_r l r). lra.
Qed.


(** ** Snapshots of real frames hold every landmark *)

Lemma get_all_coords_lookup landmarks w h name idx :
  (name, idx) ∈ FACIAL_LANDMARKS ->
  get_all_coords landmarks w h !! name = Some (_get_coords landmarks idx w h).
Proof.
  intros Hin. apply list_elem_of_In in Hin. simpl in Hin.
  repeat (destruct Hin as [[= <- <-]|Hin]; [vm_compute; reflexivity|]).
  destruct Hin.
Qed.

Ltac landmark_listed := apply list_elem_of_In; simpl; tauto.

Lemma smile_dists_defined coords b :
  is_snapshot coords -> is_snapshot b ->
  exists l r, smile_dists coords b = Ok (l, r).
Proof.
  intros (lc & wc & hc & ->) (lb & wb & hb & ->).
  unfold smile_dists, getitem.
  rewrite !(get_all_coords_lookup _ _ _ "mouth_left" 291%nat) by landmark_listed.
  rewrite !(get_all_coords_lookup _ _ _ "mouth_right" 61%nat) by landmark_listed.
  simpl. eauto.
Qed.

Lemma eyebrow_raises_defined coords b :
  is_snapshot coords -> is_snapshot b ->
  exists l r, eyebrow_raises coords b = Ok (l, r).
Proof.
  intros (lc & wc & hc & ->) (lb & wb & hb & ->).
  unfold eyebrow_raises, getitem.
  rewrite !(get_all_coords_lookup _ _ _ "eyebrow_left" 334%nat) by landmark_listed.
  rewrite !(get_all_coords_lookup _ _ _ "eyebrow_right" 105%nat) by landmark_listed.
  simpl. eauto.
Qed.

Lemma eye_openings_defined coords :
  is_snapshot coords -> exists l r, eye_openings coords = Ok (l, r).
Proof.
  intros (lc & wc & hc & ->).
  unfold eye_openings, getitem.
  rewrite (get_all_coords_lookup _ _ _ "eye_top_left" 386%nat) by landmark_listed.
  rewrite (get_all_coords_lookup _ _ _ "eye_bottom_left" 374%nat) by landmark_listed.
  rewrite (get_all_coords_lookup _ _ _ "eye_top_right" 159%nat) by landmark_listed.
  rewrite (get_all_coords_lookup _ _ _ "eye_bottom_right" 145%nat) by landmark_listed.
  simpl. eauto.
Qed.

(** No frame raises: the lookups find their keys because the baseline was
    filled from a frame, and the thresholds keep the divisor away from 0. *)
Lemma transform_never_raises (st : state) (fr : frame) :
  baseline_from_frame st ->
  exists st' drawn,
    transform st fr = Ok (st', drawn) /\
    baseline_from_frame st' /\ task st' = task st.
Proof.
  intros Hinv. unfold transform.
  destruct (multi_face_landmarks fr) as [|landmarks rest]; [eauto|].
  set (coords := get_all_coords landmarks (frame_w fr) (frame_h fr)).
  assert (Hc : is_snapshot coords) by (unfold is_snapshot; eauto).
  destruct (decide (task st = "Set Baseline")) as [Hset|Hset].
  { rewrite (transform_detected_set_baseline _ _ Hset).
    do 2 eexists. split; [reflexivity|]. split; [exact Hc|]. simpl. congruence. }
  unfold baseline_from_frame in Hinv.
  destruct (baseline_coords st) as [b|] eqn:Hb.
  2:{ rewrite (transform_detected_no_baseline _ _ Hb Hset).
      do 2 eexists. split; [reflexivity|].
      split; [unfold baseline_from_frame; rewrite Hb; exact I|reflexivity]. }
  assert (Hst : baseline_from_frame st)
    by (unfold baseline_from_frame; rewrite Hb; exact Hinv).
  destruct (decide (task st = "Smile")) as [Ht|Hns].
  { destruct (smile_dists_defined coords b Hc Hinv) as (l & r & Hd).
    rewrite (transform_detected_smile _ _ _ _ _ Hb Ht Hd).
    destruct (smile_dists_nonneg _ _ _ _ Hd) as [Hl Hr].
    destruct (Z.ltb_spec 10 (l + r)) as [Hsum|Hsum]; [|eauto].
    destruct (symmetry_of_facts l r) as (s & -> & _); [lia|]. simpl. eauto. }
  destruct (decide (task st = "Raise Eyebrows")) as [Ht|Hnb].
  { destruct (eyebrow_raises_defined coords b Hc Hinv) as (l & r & Hd).
    rewrite (transform_detected_eyebrows _ _ _ _ _ Hb Ht Hd).
    destruct (Z.ltb_spec 5 (l + r)) as [Hsum|Hsum]; [|eauto].
    destruct (symmetry_of_facts l r) as (s & -> & _); [lia|]. simpl. eauto. }
  destruct (decide (task st = "Close Eyes Tightly")) as [Ht|Hne].
  { destruct (eye_openings_defined coords Hc) as (l & r & Hd).
    rewrite (transform_detected_eyes _ _ _ _ _ Hb Ht Hd).
    destruct (eye_openings_nonneg _ _ _ Hd) as [Hl Hr].
    destruct (Rgt_dec (l + r) 0) as [Hsum|Hsum]; [|eauto].
    rewrite (symmetry_of_R_ok l r Hl Hr Hsum). simpl. eauto. }
  exists st, []. split; [|auto].
  unfold transform_detected.
  rewrite (bool_decide_eq_false_2 _ Hset), Hb.
  rewrite (bool_decide_eq_false_2 _ Hns), (bool_decide_eq_false_2 _ Hnb),
    (bool_decide_eq_false_2 _ Hne). reflexivity.
Qed.

Lemma transform_all_never_raises (st : state) (frames : list frame) :
  baseline_from_frame st ->
  exists st', transform_all st frames = Ok st' /\ baseline_from_frame st'.
Proof.
  revert st. induction frames as [|fr frames IH]; intros st Hinv; [simpl; eauto|].
  destruct (transform_never_raises st fr Hinv) as (st1 & drawn & E & Hinv1 & _).
  simpl. rewrite E. cbn [mbind result_bind]. apply IH, Hinv1.
Qed.

(** ** C7 *)

(** C7. With baseline {mouth_left:(100,200), mouth_right:(300,200)} and
    current snapshot {mouth_left:(90,200), mouth_right:(320,200)} the Smile
    metric pair is left = 10, right = 20, the sum 30 passes the 10 px
    threshold, and the frame shows the symmetry score 50, and nothing else. *)
Theorem smile_scenario_scores_50 :
  let st := {| baseline_coords := Some scenario_baseline; task := "Smile" |} in
  smile_dists scenario_current scenario_baseline = Ok (10, 20)%Z /\
  (10 <? 10 + 20)%Z = true /\
  exists s : Q,
    transform_detected st scenario_current = Ok (st, [SmileSymmetry s]) /\
    (s == 50)%Q /\ Qred s = 50%Q.
Proof.
  split; [vm_compute; reflexivity|].
  split; [reflexivity|].
  eexists. split.
  - rewrite (transform_detected_smile _ _ scenario_baseline 10 20)
      by (vm_compute; reflexivity).
    vm_compute. reflexivity.
  - split; reflexivity.
Qed.

(** ** C1 *)

(** C1, as the code has it.  When the metric pair passes the noise threshold
    of its task (more than 10 px for Smile, more than 5 px for Raise
    Eyebrows) the frame shows exactly one score
    s = min(left, right) / max(left, right) * 100, and
    - s <= 100, and s = 100 exactly when left = right;
    - for Smile, 0 <= s; for Raise Eyebrows, -100 < s;
    - s lies in (0, 100] exactly when both left and right are positive. *)
Theorem symmetry_score_range (st : state) (coords b : gmap string point) (l r : Z) :
  baseline_coords st = Some b ->
  (task st = "Smile" /\ smile_dists coords b = Ok (l, r) /\ (10 < l + r)%Z) \/
  (task st = "Raise Eyebrows" /\ eyebrow_raises coords b = Ok (l, r) /\ (5 < l + r)%Z) ->
  exists s : Q,
    symmetry_of l r = Ok s /\
    transform_detected st coords =
      Ok (st, [if bool_decide (task st = "Smile")
               then SmileSymmetry s else EyebrowSymmetry s]) /\
    (-100 < s)%Q /\ (s <= 100)%Q /\
    (task st = "Smile" -> (0 <= s)%Q) /\
    ((0 < s)%Q <-> (0 < l)%Z /\ (0 < r)%Z) /\
    ((s == 100)%Q <-> l = r).
Proof.
  intros Hb [(Ht & Hd & Hsum) | (Ht & Hd & Hsum)].
  - destruct (smile_dists_nonneg _ _ _ _ Hd) as [Hl Hr].
    destruct (symmetry_of_facts l r) as (s & Hs & Hle & Heq & Hnn & Hpos & Hlow);
      [lia|].
    exists s. split; [exact Hs|].
    split.
    { rewrite (transform_detected_smile _ _ _ _ _ Hb Ht Hd).
      rewrite (proj2 (Z.ltb_lt _ _) Hsum), Hs, Ht. reflexivity. }
    split; [apply Hlow; lia|].
    split; [exact Hle|].
    split; [intros _; apply Hnn; lia|].
    split; [exact Hpos|exact Heq].
  - destruct (symmetry_of_facts l r) as (s & Hs & Hle & Heq & Hnn & Hpos & Hlow);
      [lia|].
    exists s. split; [exact Hs|].
    split.
    { rewrite (transform_detected_eyebrows _ _ _ _ _ Hb Ht Hd).
      rewrite (proj2 (Z.ltb_lt _ _) Hsum), Hs, Ht. reflexivity. }
    split; [apply Hlow; lia|].
    split; [exact Hle|].
    split; [intros Ht'; rewrite Ht in Ht'; discriminate|].
    split; [exact Hpos|exact Heq].
Qed.

Lemma symmetry_score_range_witness :
  exists s : Q,
    symmetry_of 10 20 = Ok s /\
    transform_detected {| baseline_coords := Some scenario_baseline; task := "Smile" |}
                       scenario_current =
      Ok ({| baseline_coords := Some scenario_baseline; task := "Smile" |},
          [if bool_decide ("Smile" = "Smile")
           then SmileSymmetry s else EyebrowSymmetry s]) /\
    (-100 < s)%Q /\ (s <= 100)%Q /\
    ("Smile" = "Smile" -> (0 <= s)%Q) /\
    ((0 < s)%Q <-> (0 < 10)%Z /\ (0 < 20)%Z) /\
    ((s == 100)%Q <-> 10%Z = 20%Z).
Proof.
  apply (symmetry_score_range
           {| baseline_coords := Some scenario_baseline; task := "Smile" |}
           scenario_current scenario_baseline 10 20).
  - reflexivity.
  - left. split; [reflexivity|]. split; [vm_compute; reflexivity|lia].
Defined.

(** C1 fails as stated: a pair that passes the threshold can score 0 (Smile,
    only one mouth corner moved: left = 0, right = 11) or below 0 (Raise
    Eyebrows, one eyebrow lower than in the baseline: left = -5, right = 20),
    so the score is not always in (0, 100]. *)
Lemma symmetry_score_not_always_positive :
  (let st := {| baseline_coords := Some scenario_baseline; task := "Smile" |} in
   smile_dists one_sided_smile scenario_baseline = Ok (0, 11)%Z /\
   (10 < 0 + 11)%Z /\
   exists s : Q,
     transform_detected st one_sided_smile = Ok (st, [SmileSymmetry s]) /\
     (s == 0)%Q /\ ~ (0 < s)%Q) /\
  (let st := {| baseline_coords := Some brows_baseline; task := "Raise Eyebrows" |} in
   eyebrow_raises brows_current brows_baseline = Ok (-5, 20)%Z /\
   (5 < -5 + 20)%Z /\
   exists s : Q,
     transform_detected st brows_current = Ok (st, [EyebrowSymmetry s]) /\
     (s == -25)%Q /\ ~ (0 < s)%Q).
Proof.
  split.
  - split; [vm_compute; reflexivity|]. split; [lia|].
    eexists. split.
    + rewrite (transform_detected_smile _ _ scenario_baseline 0 11)
        by (vm_compute; reflexivity).
      vm_compute. reflexivity.
    + split; [reflexivity|]. intros Hlt. vm_compute in Hlt. discriminate.
  - split; [vm_compute; reflexivity|]. split; [lia|].
    eexists. split.
    + rewrite (transform_detected_eyebrows _ _ brows_baseline (-5) 20)
        by (vm_compute; reflexivity).
      vm_compute. reflexivity.
    + split; [reflexivity|]. intros Hlt. vm_compute in Hlt. discriminate.
Qed.

(** ** C2 *)

(** C2, as the code has it.  In every frame handled while a scoring task
    (Smile, Raise Eyebrows or Close Eyes Tightly) is active and the baseline
    store is empty, nothing is drawn and nothing is raised: the frame shows
    no score and no message of any kind, and the state is left as it was. *)
Theorem no_baseline_frame_is_silent (st : state) (fr : frame) :
  baseline_coords st = None ->
  task st ∈ scoring_tasks ->
  transform st fr = Ok (st, []).
Proof.
  intros Hb Ht. unfold transform.
  destruct (multi_face_landmarks fr) as [|landmarks rest]; [reflexivity|].
  apply transform_detected_no_baseline; [exact Hb|].
  intros E. rewrite E in Ht. apply list_elem_of_In in Ht.
  simpl in Ht. destruct Ht as [Ht|[Ht|[Ht|[]]]]; discriminate.
Qed.

Lemma no_baseline_frame_is_silent_witness :
  transform {| baseline_coords := None; task := "Smile" |}
            {| frame_w := 640; frame_h := 480; multi_face_landmarks := [whole_face] |}
  = Ok ({| baseline_coords := None; task := "Smile" |}, []).
Proof.
  apply (no_baseline_frame_is_silent
           {| baseline_coords := None; task := "Smile" |}
           {| frame_w := 640; frame_h := 480; multi_face_landmarks := [whole_face] |}).
  - reflexivity.
  - unfold scoring_tasks. apply list_elem_of_here.
Defined.

(** C2 fails as stated: with the Smile task active, an empty baseline store
    and a detected face, the frame raises nothing and draws nothing, so no
    "no baseline" report is visible. *)
Lemma no_baseline_is_not_reported :
  let st := {| baseline_coords := None; task := "Smile" |} in
  let outcome := transform_detected st scenario_current in
  (forall e, outcome <> Raise e) /\
  ~ (exists st' drawn t, outcome = Ok (st', drawn) /\ t ∈ drawn).
Proof.
  assert (E : transform_detected {| baseline_coords := None; task := "Smile" |}
                scenario_current
              = Ok ({| baseline_coords := None; task := "Smile" |}, [])).
  { apply transform_detected_no_baseline; [reflexivity|discriminate]. }
  simpl. rewrite E. split.
  - intros e; discriminate.
  - intros (st' & drawn & t & [= _ <-] & Hin). inversion Hin.
Qed.

(** ** C6 *)

(** C6.  In a frame with a detected face, a present baseline and a scoring
    task, a score is drawn exactly when left + right exceeds the threshold
    of the task: more than 10 for Smile, more than 5 for Raise Eyebrows (the
    drawn score is the ratio), any positive sum for Close Eyes Tightly (the
    drawn score is the pair of raw gaps).  At or below the threshold the
    frame draws nothing; in neither case is anything raised. *)
Theorem score_drawn_iff_threshold (st : state) (coords b : gmap string point) :
  baseline_coords st = Some b ->
  (forall l r : Z,
      task st = "Smile" -> smile_dists coords b = Ok (l, r) ->
      exists drawn,
        transform_detected st coords = Ok (st, drawn) /\
        (Exists (fun t => is_score t = true) drawn <-> (10 < l + r)%Z) /\
        ((10 < l + r)%Z ->
           exists s, symmetry_of l r = Ok s /\ drawn = [SmileSymmetry s]) /\
        ((l + r <= 10)%Z -> drawn = [])) /\
  (forall l r : Z,
      task st = "Raise Eyebrows" -> eyebrow_raises coords b = Ok (l, r) ->
      exists drawn,
        transform_detected st coords = Ok (st, drawn) /\
        (Exists (fun t => is_score t = true) drawn <-> (5 < l + r)%Z) /\
        ((5 < l + r)%Z ->
           exists s, symmetry_of l r = Ok s /\ drawn = [EyebrowSymmetry s]) /\
        ((l + r <= 5)%Z -> drawn = [])) /\
  (forall l r : R,
      task st = "Close Eyes Tightly" -> eye_openings coords = Ok (l, r) ->
      exists drawn,
        transform_detected st coords = Ok (st, drawn) /\
        (Exists (fun t => is_score t = true) drawn <-> (0 < l + r)%R) /\
        ((0 < l + r)%R -> drawn = [EyeClosureHeader; EyeClosureValues l r]) /\
        ((l + r <= 0)%R -> drawn = [])).
Proof.
  intros Hb. split; [|split].
  - intros l r Ht Hd.
    rewrite (transform_detected_smile _ _ _ _ _ Hb Ht Hd).
    destruct (smile_dists_nonneg _ _ _ _ Hd) as [Hl Hr].
    destruct (Z.ltb_spec 10 (l + r)) as [Hsum|Hsum].
    + destruct (symmetry_of_facts l r) as (s & Hs & _); [lia|].
      rewrite Hs. eexists. split; [reflexivity|].
      split; [split; [intros _; exact Hsum | intros _; apply Exists_cons_hd; reflexivity]|].
      split; [intros _; exists s; split; reflexivity|lia].
    + eexists. split; [reflexivity|].
      split; [split; [intros Hx; inversion Hx | lia]|].
      split; [lia|reflexivity].
  - intros l r Ht Hd.
    rewrite (transform_detected_eyebrows _ _ _ _ _ Hb Ht Hd).
    destruct (Z.ltb_spec 5 (l + r)) as [Hsum|Hsum].
    + destruct (symmetry_of_facts l r) as (s & Hs & _); [lia|].
      rewrite Hs. eexists. split; [reflexivity|].
      split; [split; [intros _; exact Hsum | intros _; apply Exists_cons_hd; reflexivity]|].
      split; [intros _; exists s; split; reflexivity|lia].
    + eexists. split; [reflexivity|].
      split; [split; [intros Hx; inversion Hx | lia]|].
      split; [lia|reflexivity].
  - intros l r Ht Hd.
    rewrite (transform_detected_eyes _ _ _ _ _ Hb Ht Hd).
    destruct (eye_openings_nonneg _ _ _ Hd) as [Hl Hr].
    destruct (Rgt_dec (l + r) 0) as [Hsum|Hsum].
    + rewrite (symmetry_of_R_ok l r Hl Hr Hsum).
      eexists. split; [reflexivity|].
      split; [split; [intros _; lra
                     | intros _; apply Exists_cons_tl, Exists_cons_hd; reflexivity]|].
      split; [reflexivity|lra].
    + eexists. split; [reflexivity|].
      split; [split; [intros Hx; inversion Hx | lra]|].
      split; [lra|reflexivity].
Qed.

(** An instance in the Smile task: the sum 30 of the scenario exceeds 10 and
    a score is drawn. *)
Lemma score_drawn_iff_threshold_witness :
  exists drawn,
    transform_detected {| baseline_coords := Some scenario_baseline; task := "Smile" |}
                       scenario_current
      = Ok ({| baseline_coords := Some scenario_baseline; task := "Smile" |}, drawn) /\
    (Exists (fun t => is_score t = true) drawn <-> (10 < 10 + 20)%Z) /\
    ((10 < 10 + 20)%Z ->
       exists s, symmetry_of 10 20 = Ok s /\ drawn = [SmileSymmetry s]) /\
    ((10 + 20 <= 10)%Z -> drawn = []).
Proof.
  apply (proj1 (score_drawn_iff_threshold
                  {| baseline_coords := Some scenario_baseline; task := "Smile" |}
                  scenario_current scenario_baseline eq_refl) 10%Z 20%Z).
  - reflexivity.
  - vm_compute. reflexivity.
Defined.

(** ** C8 *)

Lemma transform_all_faceless st dims :
  transform_all st (map faceless dims) = Ok st.
Proof.
  induction dims as [|d dims IH]; [reflexivity|].
  simpl. exact IH.
Qed.

Lemma transform_all_app st frames fr :
  transform_all st (frames ++ [fr]) =
    st' ← transform_all st frames; '(st'', _) ← transform st' fr; Ok st''.
Proof.
  revert st. induction frames as [|f frames IH]; intros st; simpl.
  - destruct (transform st fr) as [[st' drawn]|e]; reflexivity.
  - destruct (transform st f) as [[st' drawn]|e]; simpl; [apply IH|reflexivity].
Qed.

(** C8.  From every state, selecting "Set Baseline" empties the baseline
    store at once; it stays empty through any number of frames without a
    face, and the first frame with a face sets it to exactly the snapshot of
    that frame, whatever the store held before the selection. *)
Theorem set_baseline_clears_then_overwrites
    (st : state) (dims : list (Z * Z)) (w h : Z)
    (landmarks : face_landmarks) (others : list face_landmarks) :
  let awaiting := set_task st "Set Baseline" in
  let fr := {| frame_w := w; frame_h := h;
               multi_face_landmarks := landmarks :: others |} in
  awaiting = {| baseline_coords := None; task := "Set Baseline" |} /\
  transform_all awaiting (map faceless dims) = Ok awaiting /\
  transform awaiting fr =
    Ok ({| baseline_coords := Some (get_all_coords landmarks w h);
           task := "Set Baseline" |}, [BaselineSetMsg]) /\
  transform_all awaiting (map faceless dims ++ [fr]) =
    Ok {| baseline_coords := Some (get_all_coords landmarks w h);
          task := "Set Baseline" |}.
Proof.
  intros awaiting fr.
  assert (Ha : awaiting = {| baseline_coords := None; task := "Set Baseline" |})
    by reflexivity.
  assert (Hf : transform awaiting fr =
    Ok ({| baseline_coords := Some (get_all_coords landmarks w h);
           task := "Set Baseline" |}, [BaselineSetMsg])).
  { unfold transform, fr. simpl. apply transform_detected_set_baseline. reflexivity. }
  split; [exact Ha|].
  split; [apply transform_all_faceless|].
  split; [exact Hf|].
  rewrite transform_all_app, transform_all_faceless.
  cbv beta iota delta [mbind result_bind]. rewrite Hf. reflexivity.
Qed.

(* --------------------------------------------------------------------- *)
(** * Further properties of the facial tool *)

(** ** Pixel coordinates *)

Lemma py_int_nonneg_bounds (x : Q) :
  (0 <= x)%Q -> (0 <= py_int x)%Z /\ (inject_Z (py_int x) <= x)%Q /\
                (x < inject_Z (py_int x + 1))%Q.
Proof.
  intros Hx. unfold py_int.
  rewrite (proj2 (Qle_bool_iff 0 x) Hx).
  split; [|split].
  - change 0%Z with (Qfloor 0). apply Qfloor_resp_le, Hx.
  - apply Qfloor_le.
  - apply Qlt_floor.
Qed.

Lemma py_int_below (x : Q) (w : Z) :
  (0 <= x)%Q -> (x < inject_Z w)%Q -> (0 <= py_int x < w)%Z.
Proof.
  intros Hx Hw. destruct (py_int_nonneg_bounds x Hx) as (H0 & Hle & _).
  split; [exact H0|].
  rewrite Zlt_Qlt. eapply Qle_lt_trans; [exact Hle|exact Hw].
Qed.

(** A landmark whose normalised coordinates lie in [0, 1) gets a pixel
    inside the frame. *)
Theorem get_coords_inside_frame (landmarks : face_landmarks) (idx : nat) (w h : Z) :
  (0 < w)%Z -> (0 < h)%Z ->
  (0 <= lm_x (landmarks idx))%Q -> (lm_x (landmarks idx) < 1)%Q ->
  (0 <= lm_y (landmarks idx))%Q -> (lm_y (landmarks idx) < 1)%Q ->
  (0 <= (_get_coords landmarks idx w h).1 < w)%Z /\
  (0 <= (_get_coords landmarks idx w h).2 < h)%Z.
Proof.
  intros Hw Hh Hx0 Hx1 Hy0 Hy1. unfold _get_coords. simpl.
  assert (Hwq : (0 < inject_Z w)%Q) by (unfold Qlt; simpl; lia).
  assert (Hhq : (0 < inject_Z h)%Q) by (unfold Qlt; simpl; lia).
  split; apply py_int_below.
  - apply Qmult_le_0_compat; [exact Hx0|apply Qlt_le_weak, Hwq].
  - eapply Qlt_le_trans; [apply Qmult_lt_compat_r; eassumption|].
    rewrite Qmult_1_l. apply Qle_refl.
  - apply Qmult_le_0_compat; [exact Hy0|apply Qlt_le_weak, Hhq].
  - eapply Qlt_le_trans; [apply Qmult_lt_compat_r; eassumption|].
    rewrite Qmult_1_l. apply Qle_refl.
Qed.

Lemma get_coords_inside_frame_witness :
  (0 <= (_get_coords whole_face 291 640 480).1 < 640)%Z /\
  (0 <= (_get_coords whole_face 291 640 480).2 < 480)%Z.
Proof.
  apply (get_coords_inside_frame whole_face 291 640 480);
    vm_compute; first [reflexivity | discriminate].
Defined.

Lemma py_int_nonpos_bounds (x : Q) :
  (x <= 0)%Q -> (py_int x <= 0)%Z /\ (x <= inject_Z (py_int x))%Q /\
                (inject_Z (py_int x - 1) < x)%Q.
Proof.
  intros Hx. unfold py_int. destruct (Qle_bool 0 x) eqn:E.
  - apply Qle_bool_iff in E.
    assert (Hz : (x == 0)%Q) by (apply Qle_antisym; assumption).
    assert (Hf : Qfloor x = 0%Z).
    { apply Z.le_antisymm.
      - change 0%Z with (Qfloor 0). apply Qfloor_resp_le, Hx.
      - change 0%Z with (Qfloor 0). apply Qfloor_resp_le, E. }
    rewrite Hf. split; [lia|]. split; [exact Hx|].
    rewrite Hz. reflexivity.
  - split; [|split].
    + change 0%Z with (Qceiling 0). apply Qceiling_resp_le, Hx.
    + apply Qle_ceiling.
    + apply Qceiling_lt.
Qed.

(** [int()] truncates towards zero: the pixel is the integer part of
    [lm.x * w], for a landmark left of or above the frame as well. *)
Theorem get_coords_truncates_towards_zero
    (landmarks : face_landmarks) (idx : nat) (w h : Z) :
  let x := (lm_x (landmarks idx) * inject_Z w)%Q in
  let y := (lm_y (landmarks idx) * inject_Z h)%Q in
  let cx := (_get_coords landmarks idx w h).1 in
  let cy := (_get_coords landmarks idx w h).2 in
  ((0 <= x)%Q -> (0 <= cx)%Z /\ (inject_Z cx <= x)%Q /\ (x < inject_Z (cx + 1))%Q) /\
  ((x <= 0)%Q -> (cx <= 0)%Z /\ (x <= inject_Z cx)%Q /\ (inject_Z (cx - 1) < x)%Q) /\
  ((0 <= y)%Q -> (0 <= cy)%Z /\ (inject_Z cy <= y)%Q /\ (y < inject_Z (cy + 1))%Q) /\
  ((y <= 0)%Q -> (cy <= 0)%Z /\ (y <= inject_Z cy)%Q /\ (inject_Z (cy - 1) < y)%Q).
Proof.
  intros x y cx cy. unfold cx, cy, _get_coords. simpl. fold x y.
  split; [apply py_int_nonneg_bounds|].
  split; [apply py_int_nonpos_bounds|].
  split; [apply py_int_nonneg_bounds|apply py_int_nonpos_bounds].
Qed.

(** ** The snapshot dictionary *)

Lemma get_all_coords_unlisted landmarks w h name :
  name ∉ FACIAL_LANDMARKS.*1 ->
  get_all_coords landmarks w h !! name = None.
Proof.
  intros Hnot. unfold get_all_coords. simpl.
  repeat (rewrite lookup_insert_ne;
          [|intros <-; apply Hnot; apply list_elem_of_In; simpl; tauto]).
  apply lookup_empty.
Qed.

(** The [coords] of a frame hold the nine named landmarks, each at the
    pixel of its index, and no other key. *)
Theorem get_all_coords_keys (landmarks : face_landmarks) (w h : Z) :
  (forall name idx, (name, idx) ∈ FACIAL_LANDMARKS ->
     get_all_coords landmarks w h !! name = Some (_get_coords landmarks idx w h)) /\
  (forall name, name ∉ FACIAL_LANDMARKS.*1 ->
     get_all_coords landmarks w h !! name = None) /\
  dom (get_all_coords landmarks w h) = list_to_set FACIAL_LANDMARKS.*1 /\
  size (get_all_coords landmarks w h) = 9%nat.
Proof.
  split; [intros name idx; apply get_all_coords_lookup|].
  split; [intros name; apply get_all_coords_unlisted|].
  assert (Hdom : dom (get_all_coords landmarks w h)
                 = (list_to_set FACIAL_LANDMARKS.*1 : gset string)).
  { unfold get_all_coords. simpl. rewrite !dom_insert_L, dom_empty_L.
    set_solver. }
  split; [exact Hdom|].
  rewrite <- size_dom, Hdom. reflexivity.
Qed.

(** ** Frames and selections that leave the state alone *)

(** A frame handled under any task but "Set Baseline" changes neither the
    baseline store nor the task. *)
Lemma transform_keeps_state (st st' : state) (fr : frame) (drawn : list text) :
  task st <> "Set Baseline" ->
  transform st fr = Ok (st', drawn) ->
  st' = st.
Proof.
  intros Hset. unfold transform.
  destruct (multi_face_landmarks fr) as [|landmarks rest]; [congruence|].
  unfold transform_detected. rewrite (bool_decide_eq_false_2 _ Hset).
  destruct (baseline_coords st) as [b|]; [|congruence].
  repeat case_bool_decide.
  - destruct (smile_dists _ b) as [[l r]|]; cbn [mbind result_bind]; [|discriminate].
    destruct (10 <? l + r)%Z; [|congruence].
    destruct (symmetry_of l r); cbn [mbind result_bind]; congruence.
  - destruct (eyebrow_raises _ b) as [[l r]|]; cbn [mbind result_bind]; [|discriminate].
    destruct (5 <? l + r)%Z; [|congruence].
    destruct (symmetry_of l r); cbn [mbind result_bind]; congruence.
  - destruct (eye_openings _) as [[l r]|]; cbn [mbind result_bind]; [|discriminate].
    destruct (Rgt_dec (l + r) 0); [|congruence].
    destruct (symmetry_of_R l r); cbn [mbind result_bind]; congruence.
  - congruence.
Qed.

Lemma set_task_from_frame st new_task :
  baseline_from_frame st -> baseline_from_frame (set_task st new_task).
Proof.
  unfold set_task, baseline_from_frame.
  destruct (bool_decide (new_task = "Set Baseline")); simpl; auto.
Qed.

Lemma session_never_raises_from (st : state) (events : list event) :
  baseline_from_frame st ->
  exists st', session st events = Ok st' /\ baseline_from_frame st'.
Proof.
  revert st. induction events as [|ev events IH]; intros st Hinv; [simpl; eauto|].
  destruct ev as [new_task|fr]; simpl; cbn [mbind result_bind].
  - apply IH, set_task_from_frame, Hinv.
  - destruct (transform_never_raises st fr Hinv) as (st1 & drawn & -> & Hinv1 & _).
    cbn [mbind result_bind]. apply IH, Hinv1.
Qed.

(** Whatever the operator selects and whatever the frames show, in any
    order, a session that starts from the initial state never raises: no
    lookup misses its key and no score divides by zero. *)
Theorem session_never_raises (events : list event) :
  exists st, session init events = Ok st /\ baseline_from_frame st.
Proof. apply session_never_raises_from. exact I. Qed.

(** ** The baseline while "Set Baseline" stays selected *)

Lemma transform_set_baseline st fr :
  task st = "Set Baseline" ->
  exists drawn,
    transform st fr =
      Ok ({| baseline_coords :=
               match frame_coords fr with
               | Some coords => Some coords
               | None => baseline_coords st
               end;
             task := "Set Baseline" |}, drawn).
Proof.
  intros Ht. unfold transform, frame_coords.
  destruct (multi_face_landmarks fr) as [|landmarks rest].
  - exists []. destruct st as [b t]. simpl in *. subst t. reflexivity.
  - rewrite (transform_detected_set_baseline _ _ Ht). eauto.
Qed.

(** While "Set Baseline" stays selected every frame with a face replaces the
    baseline: after any frames the store holds the snapshot of the last
    frame that showed a face, or what it held before when none did. *)
Theorem baseline_follows_last_face (st : state) (frames : list frame) :
  task st = "Set Baseline" ->
  transform_all st frames =
    Ok {| baseline_coords :=
            match last_face frames with
            | Some coords => Some coords
            | None => baseline_coords st
            end;
          task := "Set Baseline" |}.
Proof.
  revert st. induction frames as [|fr frames IH]; intros st Ht.
  - destruct st as [b t]. simpl in *. subst t. reflexivity.
  - destruct (transform_set_baseline st fr Ht) as (drawn & E).
    simpl. rewrite E. cbn [mbind result_bind]. rewrite IH by reflexivity.
    simpl. destruct (last_face frames); reflexivity.
Qed.

Lemma baseline_follows_last_face_witness :
  transform_all {| baseline_coords := Some scenario_baseline; task := "Set Baseline" |}
    [ {| frame_w := 640; frame_h := 480; multi_face_landmarks := [whole_face] |};
      faceless (640, 480)%Z ]
  = Ok {| baseline_coords :=
            match last_face
                    [ {| frame_w := 640; frame_h := 480;
                         multi_face_landmarks := [whole_face] |};
                      faceless (640, 480)%Z ] with
            | Some coords => Some coords
            | None => Some scenario_baseline
            end;
          task := "Set Baseline" |}.
Proof.
  apply (baseline_follows_last_face
           {| baseline_coords := Some scenario_baseline; task := "Set Baseline" |}).
  reflexivity.
Defined.

(** ** The baseline between two selections of "Set Baseline" *)

(** Once captured, a baseline is kept through any frames and any task
    switches, as long as "Set Baseline" is not selected again. *)
Theorem baseline_kept_until_reselected
    (st st' : state) (events : list event) :
  task st <> "Set Baseline" ->
  Forall (fun ev => ~ selects_baseline ev) events ->
  session st events = Ok st' ->
  baseline_coords st' = baseline_coords st /\ task st' <> "Set Baseline".
Proof.
  intros Ht Hev. revert st Ht.
  induction Hev as [|ev events Hno _ IH]; intros st Ht; simpl.
  - intros [= <-]. auto.
  - destruct ev as [new_task|fr]; simpl in *; cbn [mbind result_bind].
    + intros Hs. apply IH in Hs.
      * destruct Hs as [-> Hs]. split; [|exact Hs].
        unfold set_task. rewrite (bool_decide_eq_false_2 _ Hno). reflexivity.
      * unfold set_task. rewrite (bool_decide_eq_false_2 _ Hno). exact Hno.
    + destruct (transform st fr) as [[st1 drawn]|e] eqn:E;
        cbn [mbind result_bind]; [|discriminate].
      apply (transform_keeps_state _ _ _ _ Ht) in E. subst st1.
      apply IH, Ht.
Qed.

Lemma baseline_kept_until_reselected_witness :
  baseline_coords {| baseline_coords := Some scenario_baseline; task := "Raise Eyebrows" |}
    = baseline_coords {| baseline_coords := Some scenario_baseline; task := "Smile" |} /\
  task {| baseline_coords := Some scenario_baseline; task := "Raise Eyebrows" |}
    <> "Set Baseline".
Proof.
  apply (baseline_kept_until_reselected
           {| baseline_coords := Some scenario_baseline; task := "Smile" |}
           {| baseline_coords := Some scenario_baseline; task := "Raise Eyebrows" |}
           [Frame (faceless (640, 480)%Z); Select "Raise Eyebrows"]).
  - discriminate.
  - repeat constructor; simpl; [tauto|discriminate].
  - reflexivity.
Defined.

(** ** The ratio of a metric pair *)

Lemma ratio_scale (k a b : Z) :
  (0 < k)%Z -> (0 < b)%Z ->
  (inject_Z (k * a) / inject_Z (k * b) * 100 == inject_Z a / inject_Z b * 100)%Q.
Proof.
  intros Hk Hb.
  assert (Hkq : ~ (inject_Z k == 0)%Q) by (unfold Qeq; simpl; lia).
  assert (Hbq : ~ (inject_Z b == 0)%Q) by (unfold Qeq; simpl; lia).
  rewrite !inject_Z_mult. field. split; assumption.
Qed.

(** The score does not depend on which side is called left, nor on the
    scale of the picture: swapping the pair, or multiplying both sides by
    the same positive factor, gives the same score. *)
Theorem symmetry_of_swap_and_scale (k l r : Z) :
  (0 < k)%Z -> (0 < Z.max l r)%Z ->
  symmetry_of r l = symmetry_of l r /\
  exists s s' : Q,
    symmetry_of l r = Ok s /\
    symmetry_of (k * l) (k * r) = Ok s' /\
    (s' == s)%Q.
Proof.
  intros Hk Hmax. split.
  - unfold symmetry_of. rewrite (Z.min_comm r l), (Z.max_comm r l). reflexivity.
  - assert (Hmin : Z.min (k * l) (k * r) = (k * Z.min l r)%Z)
      by (apply Z.mul_min_distr_nonneg_l; lia).
    assert (Hmx : Z.max (k * l) (k * r) = (k * Z.max l r)%Z)
      by (apply Z.mul_max_distr_nonneg_l; lia).
    do 2 eexists. split; [apply symmetry_of_ok, Hmax|].
    split; [apply symmetry_of_ok; rewrite Hmx; lia|].
    rewrite Hmin, Hmx. apply ratio_scale; assumption.
Qed.

Lemma symmetry_of_swap_and_scale_witness :
  symmetry_of 20 10 = symmetry_of 10 20 /\
  exists s s' : Q,
    symmetry_of 10 20 = Ok s /\
    symmetry_of (3 * 10) (3 * 20) = Ok s' /\
    (s' == s)%Q.
Proof.
  apply (symmetry_of_swap_and_scale 3 10 20); lia.
Defined.

(** ** Eyelid gaps *)

Lemma _get_dist_zero (p q : point) : _get_dist p q = 0%R <-> p = q.
Proof.
  unfold _get_dist. destruct p as [px py], q as [qx qy]. simpl. split.
  - intros Hs. apply sqrt_eq_0 in Hs; [|apply IZR_le; nia].
    apply eq_IZR in Hs. f_equal; nia.
  - intros [= -> ->]. replace ((qx - qx) ^ 2 + (qy - qy) ^ 2)%Z with 0%Z by lia.
    apply sqrt_0.
Qed.

(** [_get_dist] is never negative, the same in both directions, and zero
    exactly between a pixel and itself. *)
Theorem get_dist_is_distance (p q : point) :
  (0 <= _get_dist p q)%R /\
  _get_dist p q = _get_dist q p /\
  (_get_dist p q = 0%R <-> p = q).
Proof.
  split; [apply sqrt_pos|].
  split.
  { unfold _get_dist. f_equal. f_equal. lia. }
  apply _get_dist_zero.
Qed.

(** Under "Close Eyes Tightly" with a baseline present, a frame draws
    nothing exactly when both eyelid gaps are zero, that is when the upper
    and the lower lid landmark of each eye fall on the same pixel; in every
    other frame it draws the header and the two gaps. *)
Theorem closed_eyes_draw_nothing
    (st : state) (coords b : gmap string point) (tl bl tr br : point) :
  baseline_coords st = Some b ->
  task st = "Close Eyes Tightly" ->
  coords !! "eye_top_left" = Some tl ->
  coords !! "eye_bottom_left" = Some bl ->
  coords !! "eye_top_right" = Some tr ->
  coords !! "eye_bottom_right" = Some br ->
  (tl = bl /\ tr = br -> transform_detected st coords = Ok (st, [])) /\
  (~ (tl = bl /\ tr = br) ->
     transform_detected st coords =
       Ok (st, [EyeClosureHeader;
                EyeClosureValues (_get_dist tl bl) (_get_dist tr br)])).
Proof.
  intros Hb Ht Htl Hbl Htr Hbr.
  assert (Hd : eye_openings coords = Ok (_get_dist tl bl, _get_dist tr br)).
  { unfold eye_openings, getitem. rewrite Htl, Hbl, Htr, Hbr. reflexivity. }
  rewrite (transform_detected_eyes _ _ _ _ _ Hb Ht Hd).
  pose proof (sqrt_pos (IZR ((tl.1 - bl.1) ^ 2 + (tl.2 - bl.2) ^ 2))) as Hl.
  pose proof (sqrt_pos (IZR ((tr.1 - br.1) ^ 2 + (tr.2 - br.2) ^ 2))) as Hr.
  fold (_get_dist tl bl) in Hl. fold (_get_dist tr br) in Hr.
  split.
  - intros [El Er]. apply _get_dist_zero in El, Er.
    destruct (Rgt_dec _ _) as [Hs|_]; [lra|reflexivity].
  - intros Hne. destruct (Rgt_dec _ _) as [Hs|Hs].
    + rewrite (symmetry_of_R_ok _ _ Hl Hr Hs). reflexivity.
    + exfalso. apply Hne. split; apply _get_dist_zero; lra.
Qed.

Lemma closed_eyes_draw_nothing_witness :
  ((10, 20)%Z = (10, 20)%Z /\ (30, 20)%Z = (30, 20)%Z ->
     transform_detected
       {| baseline_coords := Some scenario_baseline; task := "Close Eyes Tightly" |}
       shut_eyes
     = Ok ({| baseline_coords := Some scenario_baseline;
              task := "Close Eyes Tightly" |}, [])) /\
  (~ ((10, 20)%Z = (10, 20)%Z /\ (30, 20)%Z = (30, 20)%Z) ->
     transform_detected
       {| baseline_coords := Some scenario_baseline; task := "Close Eyes Tightly" |}
       shut_eyes
     = Ok ({| baseline_coords := Some scenario_baseline;
              task := "Close Eyes Tightly" |},
           [EyeClosureHeader;
            EyeClosureValues (_get_dist (10, 20)%Z (10, 20)%Z)
                             (_get_dist (30, 20)%Z (30, 20)%Z)])).
Proof.
  apply (closed_eyes_draw_nothing
           {| baseline_coords := Some scenario_baseline; task := "Close Eyes Tightly" |}
           shut_eyes scenario_baseline).
  - reflexivity.
  - reflexivity.
  - vm_compute. reflexivity.
  - vm_compute. reflexivity.
  - vm_compute. reflexivity.
  - vm_compute. reflexivity.
Defined.

End FacialNerveSpec.

(* ===================================================================== *)
(** * Properties of the capture window and the batch statistics *)
(* ===================================================================== *)

Module NeuroSteadySpec.
Import NeuroSteady.

(** ** Sums and means of non-negative reals *)

Section RealLists.
Open Scope R_scope.


Lemma Rsum_nonneg (l : list R) : Forall nonneg l -> 0 <= Rsum l.
Proof.
  induction 1 as [|x l Hx _ IH]; simpl; [lra|]. unfold nonneg in Hx. lra.
Qed.

Lemma Rsum_zero (l : list R) :
  Forall nonneg l -> Rsum l = 0 -> Forall (fun x => x = 0) l.
Proof.
  induction 1 as [|x l Hx Hl IH]; simpl; intros Hs; [constructor|].
  pose proof (Rsum_nonneg l Hl). unfold nonneg in Hx.
  constructor; [lra|]. apply IH. lra.
Qed.

Lemma Rsum_all_zero (l : list R) : Forall (fun x => x = 0) l -> Rsum l = 0.
Proof. induction 1 as [|x l Hx _ IH]; simpl; lra. Qed.

Lemma Rsum_const (c : R) (l : list R) :
  Forall (fun x => x = c) l -> Rsum l = INR (length l) * c.
Proof.
  induction 1 as [|x l Hx _ IH]; [simpl; lra|].
  change (Rsum (x :: l)) with (x + Rsum l).
  change (length (x :: l)) with (S (length l)).
  rewrite S_INR, IH, Hx. lra.
Qed.

Lemma length_pos (l : list R) : l <> [] -> 0 < INR (length l).
Proof.
  destruct l as [|x l]; [congruence|]. intros _.
  apply lt_0_INR. simpl. lia.
Qed.

Lemma np_mean_nonneg (l : list R) : Forall nonneg l -> 0 <= np_mean l.
Proof.
  intros Hl. unfold np_mean. destruct l as [|x l].
  - simpl. lra.
  - apply Rmult_le_pos; [apply Rsum_nonneg, Hl|].
    left. apply Rinv_0_lt_compat, length_pos. discriminate.
Qed.

Lemma np_mean_zero (l : list R) :
  l <> [] -> Forall nonneg l ->
  np_mean l = 0 <-> Forall (fun x => x = 0) l.
Proof.
  intros Hne Hl. pose proof (length_pos l Hne) as Hn. unfold np_mean. split.
  - intros Hm. apply Rsum_zero; [exact Hl|].
    apply Rmult_integral in Hm. destruct Hm as [Hm|Hm]; [exact Hm|].
    pose proof (Rinv_0_lt_compat _ Hn). lra.
  - intros Hz. rewrite (Rsum_all_zero l Hz). lra.
Qed.

Lemma np_mean_const (c : R) (l : list R) :
  l <> [] -> Forall (fun x => x = c) l -> np_mean l = c.
Proof.
  intros Hne Hc. pose proof (length_pos l Hne) as Hn.
  unfold np_mean. rewrite (Rsum_const c l Hc). field. lra.
Qed.

Lemma np_std_nonneg (l : list R) : 0 <= np_std l.
Proof. apply sqrt_pos. Qed.

Lemma squares_nonneg (m : R) (l : list R) :
  Forall nonneg (map (fun x => Rabs (x - m) ^ 2) l).
Proof.
  apply Forall_map, Forall_forall. intros x _. unfold nonneg. simpl.
  nra.
Qed.

(** The standard deviation vanishes exactly on constant samples. *)
Lemma np_std_zero (l : list R) :
  l <> [] ->
  np_std l = 0 <-> (forall x y, x ∈ l -> y ∈ l -> x = y).
Proof.
  intros Hne. unfold np_std. set (m := np_mean l).
  assert (Hne' : map (fun x => Rabs (x - m) ^ 2) l <> [])
    by (destruct l; [congruence|discriminate]).
  split.
  - intros Hs.
    apply sqrt_eq_0 in Hs; [|apply np_mean_nonneg, squares_nonneg].
    apply np_mean_zero in Hs; [|exact Hne'|apply squares_nonneg].
    rewrite Forall_map, Forall_forall in Hs.
    assert (Hm : forall x, x ∈ l -> x = m).
    { intros x Hx. specialize (Hs x Hx). simpl in Hs.
      assert (Rabs (x - m) = 0) by nra.
      destruct (Req_dec (x - m) 0) as [E|E]; [lra|].
      apply Rabs_no_R0 in E. contradiction. }
    intros x y Hx Hy. rewrite (Hm x Hx), (Hm y Hy). reflexivity.
  - intros Hall.
    destruct l as [|c l]; [congruence|].
    assert (Hc : Forall (fun x => x = c) (c :: l)).
    { apply Forall_forall. intros x Hx. apply Hall; [exact Hx|left]. }
    assert (Em : m = c) by (apply np_mean_const; assumption).
    assert (Hz : Forall (fun x => x = 0) (map (fun x => Rabs (x - m) ^ 2) (c :: l))).
    { apply Forall_map. eapply Forall_impl; [exact Hc|].
      intros x ->. simpl. rewrite Em.
      replace (c - c) with 0 by lra. rewrite Rabs_R0. lra. }
    apply (np_mean_zero _ Hne' (squares_nonneg m (c :: l))) in Hz.
    rewrite Hz. apply sqrt_0.
Qed.

(** The square root of an integer sum of two squares vanishes exactly when
    both differences do. *)
Lemma sqrt_sum_squares_zero (dx dy : Z) :
  sqrt (IZR (dx ^ 2 + dy ^ 2)) = 0 <-> dx = 0%Z /\ dy = 0%Z.
Proof.
  split.
  - intros Hs. apply sqrt_eq_0 in Hs; [|apply IZR_le; nia].
    apply eq_IZR in Hs. nia.
  - intros [-> ->]. simpl. apply sqrt_0.
Qed.
End RealLists.


(** ** C5 *)

Lemma column0_ne pts : pts <> [] -> column0 pts <> [].
Proof. destruct pts; [congruence|discriminate]. Qed.

Lemma column1_ne pts : pts <> [] -> column1 pts <> [].
Proof. destruct pts; [congruence|discriminate]. Qed.

Lemma steadiness_score_eq pts :
  steadiness_score pts = ((np_std (column0 pts) + np_std (column1 pts)) / 2)%R.
Proof. unfold steadiness_score, np_mean. simpl. lra. Qed.

Lemma distances_nonneg pts : Forall nonneg (map distance_to_target pts).
Proof. apply Forall_map, Forall_forall. intros p _. apply sqrt_pos. Qed.

Lemma distance_to_target_zero p : distance_to_target p = 0%R <-> p = TARGET_POS.
Proof.
  unfold distance_to_target. rewrite sqrt_sum_squares_zero.
  destruct p as [x y]. unfold TARGET_POS. simpl. split.
  - intros [Hx Hy]. f_equal; lia.
  - intros [= -> ->]. lia.
Qed.

Lemma columns_constant pts :
  (forall p q : point, p ∈ pts -> q ∈ pts -> p = q) <->
  (forall x y : R, x ∈ column0 pts -> y ∈ column0 pts -> x = y) /\
  (forall x y : R, x ∈ column1 pts -> y ∈ column1 pts -> x = y).
Proof.
  unfold column0, column1. split.
  - intros Hall. split; intros x y Hx Hy;
      apply list_elem_of_fmap in Hx as (p & -> & Hp);
      apply list_elem_of_fmap in Hy as (q & -> & Hq);
      rewrite (Hall p q Hp Hq); reflexivity.
  - intros [H0 H1] [px py] [qx qy] Hp Hq. f_equal.
    + apply eq_IZR. apply H0.
      * apply list_elem_of_fmap. exists (px, py). split; [reflexivity|exact Hp].
      * apply list_elem_of_fmap. exists (qx, qy). split; [reflexivity|exact Hq].
    + apply eq_IZR. apply H1.
      * apply list_elem_of_fmap. exists (px, py). split; [reflexivity|exact Hp].
      * apply list_elem_of_fmap. exists (qx, qy). split; [reflexivity|exact Hq].
Qed.

(** C5.  On a non-empty trajectory buffer the analysis yields
    steadiness = mean(std(x), std(y)) and precision = mean of the distances
    to the target centre; both are non-negative, steadiness is 0 exactly when
    all points of the buffer are identical, and precision is 0 exactly when
    every point is the target centre. *)
Theorem batch_statistics_zero_iff (pts : list point) :
  pts <> [] ->
  analyze pts = AnalysisResults (steadiness_score pts) (precision_score pts) /\
  steadiness_score pts = ((np_std (column0 pts) + np_std (column1 pts)) / 2)%R /\
  precision_score pts = np_mean (map distance_to_target pts) /\
  (0 <= steadiness_score pts)%R /\
  (0 <= precision_score pts)%R /\
  (steadiness_score pts = 0%R <-> forall p q, p ∈ pts -> q ∈ pts -> p = q) /\
  (precision_score pts = 0%R <-> forall p, p ∈ pts -> p = TARGET_POS).
Proof.
  intros Hne.
  pose proof (np_std_nonneg (column0 pts)) as Hx.
  pose proof (np_std_nonneg (column1 pts)) as Hy.
  split; [destruct pts; [congruence|reflexivity]|].
  split; [apply steadiness_score_eq|].
  split; [reflexivity|].
  split; [rewrite steadiness_score_eq; lra|].
  split; [apply np_mean_nonneg, distances_nonneg|].
  split.
  - rewrite steadiness_score_eq, columns_constant.
    rewrite <- (np_std_zero _ (column0_ne pts Hne)).
    rewrite <- (np_std_zero _ (column1_ne pts Hne)).
    split; [intros Hs; split; lra | intros [-> ->]; lra].
  - unfold precision_score.
    rewrite np_mean_zero;
      [|destruct pts; [congruence|discriminate]|apply distances_nonneg].
    rewrite Forall_map, Forall_forall. split.
    + intros Hall p Hp. apply distance_to_target_zero, Hall, Hp.
    + intros Hall p Hp. apply distance_to_target_zero, Hall, Hp.
Qed.

Lemma batch_statistics_zero_iff_witness :
  let pts := [(320, 240); (320, 240); (320, 240)]%Z in
  analyze pts = AnalysisResults (steadiness_score pts) (precision_score pts) /\
  steadiness_score pts = ((np_std (column0 pts) + np_std (column1 pts)) / 2)%R /\
  precision_score pts = np_mean (map distance_to_target pts) /\
  (0 <= steadiness_score pts)%R /\
  (0 <= precision_score pts)%R /\
  (steadiness_score pts = 0%R <-> forall p q, p ∈ pts -> q ∈ pts -> p = q) /\
  (precision_score pts = 0%R <-> forall p, p ∈ pts -> p = TARGET_POS).
Proof.
  apply (batch_statistics_zero_iff [(320, 240); (320, 240); (320, 240)]%Z).
  discriminate.
Defined.


(** ** One frame of the capture window *)

Lemma expired_iff self now :
  expired self now = true <->
  exists t0, start_time self = Some t0 /\ ~ (t0 == 0)%Q /\ (10 < now - t0)%Q.
Proof.
  unfold expired, truthy, Qlt_bool. destruct (start_time self) as [t0|].
  - rewrite andb_true_iff, !negb_true_iff. split.
    + intros [Hz Hlt]. exists t0. split; [reflexivity|]. split.
      * intros E. apply Qeq_bool_iff in E. congruence.
      * apply Qnot_le_lt. intros Hle. apply Qle_bool_iff in Hle. congruence.
    + intros (t & [= <-] & Hz & Hlt). split.
      * destruct (Qeq_bool t0 0) eqn:E; [|reflexivity].
        apply Qeq_bool_iff in E. contradiction.
      * destruct (Qle_bool (now - t0) 10) eqn:E; [|reflexivity].
        apply Qle_bool_iff in E. exfalso. apply (Qlt_not_le _ _ Hlt E).
  - split; [discriminate|]. intros (t & [=] & _).
Qed.

Lemma not_expired_within self now t0 :
  start_time self = Some t0 -> (now - t0 <= 10)%Q -> expired self now = false.
Proof.
  intros Hs Hle. destruct (expired self now) eqn:E; [|reflexivity].
  apply expired_iff in E as (t & Ht & _ & Hlt).
  rewrite Hs in Ht. injection Ht as <-.
  exfalso. apply (Qlt_not_le _ _ Hlt Hle).
Qed.

Lemma transform_closing self pts now hand :
  task self = "Hold Steady" -> expired self now = true ->
  transform self pts now hand = (init, pts).
Proof.
  intros Ht He. unfold transform. rewrite Ht, He. simpl.
  destruct hand; reflexivity.
Qed.

Lemma transform_open self pts now hand :
  task self = "Hold Steady" -> expired self now = false ->
  transform self pts now hand =
    (self, if tracking self then pts ++ option_list hand else pts).
Proof.
  intros Ht He. unfold transform. rewrite Ht, He. simpl.
  destruct hand, (tracking self); simpl; rewrite ?app_nil_r; reflexivity.
Qed.

Lemma transform_other_task self pts now hand :
  task self <> "Hold Steady" ->
  transform self pts now hand =
    (self, if tracking self then pts ++ option_list hand else pts).
Proof.
  intros Ht. unfold transform. rewrite bool_decide_eq_false_2 by exact Ht.
  destruct hand, (tracking self); simpl; rewrite ?app_nil_r; reflexivity.
Qed.

Lemma transform_not_tracking self pts now hand :
  tracking self = false ->
  (transform self pts now hand).2 = pts /\
  tracking (transform self pts now hand).1 = false.
Proof.
  intros Htr. unfold transform.
  destruct (bool_decide (task self = "Hold Steady")), (expired self now), hand;
    simpl; rewrite ?Htr; simpl; auto.
Qed.

(** ** C4 *)

(** C4, as the code has it.  For every frame handled by [transform]:
    - when tracking is off (window closed) the buffer is left as it is and
      tracking stays off;
    - when the task is "Hold Steady", the start time t_start is set and is
      not 0, and now - t_start > 10 (strictly), the window closes: task,
      start time and tracking are reset, the point of the frame is not
      appended, and closing again changes nothing;
    - when the task is "Hold Steady", tracking is on, the start time t_start
      is set and now - t_start <= 10, the detected point, if any, is appended
      and the window stays open.
    So under "Hold Steady" with a start time other than 0 no point is
    appended once now - t_start exceeds 10 seconds. *)
Theorem capture_window_frame (self : DexterityTransformer) (pts : list point)
    (now : Q) (hand : option point) :
  (tracking self = false ->
     (transform self pts now hand).2 = pts /\
     tracking (transform self pts now hand).1 = false) /\
  (forall t0, task self = "Hold Steady" -> start_time self = Some t0 ->
     ~ (t0 == 0)%Q -> (10 < now - t0)%Q ->
     transform self pts now hand = (init, pts) /\
     forall now' hand', transform init pts now' hand' = (init, pts)) /\
  (forall t0, task self = "Hold Steady" -> start_time self = Some t0 ->
     tracking self = true -> (now - t0 <= 10)%Q ->
     transform self pts now hand = (self, pts ++ option_list hand)).
Proof.
  split; [apply transform_not_tracking|]. split.
  - intros t0 Ht Hs Hz Hlt. split.
    + apply transform_closing; [exact Ht|].
      apply expired_iff. exists t0. auto.
    + intros now' hand'. rewrite transform_other_task by discriminate.
      reflexivity.
  - intros t0 Ht Hs Htr Hle.
    rewrite (transform_open _ _ _ _ Ht (not_expired_within _ _ _ Hs Hle)).
    rewrite Htr. reflexivity.
Qed.


Lemma capture_window_frame_witness :
  transform holding [(300, 240)%Z] 111 (Some (340, 240)%Z) = (init, [(300, 240)%Z]) /\
  forall now' hand', transform init [(300, 240)%Z] now' hand' = (init, [(300, 240)%Z]).
Proof.
  apply (proj1 (proj2 (capture_window_frame holding [(300, 240)%Z] 111
                         (Some (340, 240)%Z))) 100%Q).
  - reflexivity.
  - reflexivity.
  - intros E. vm_compute in E. discriminate.
  - vm_compute. reflexivity.
Defined.

(** C4 fails as stated, in three ways.  At now - t_start = 10 exactly the
    window of a "Hold Steady" capture is still open and the point is
    appended; when tracking was switched on by the start button while the
    task is "None" there is no time check at all: 900 seconds after the start
    the point is still appended; and a "Hold Steady" capture whose start time
    is 0 skips the time check, since [self.start_time] is read as a truth
    value: 5000 seconds after the start the point is still appended. *)
Lemma point_appended_at_and_after_duration :
  ((110 - 100 == 10)%Q /\
   transform holding [] 110 (Some (300, 240)%Z) = (holding, [(300, 240)%Z])) /\
  ((10 <= 1000 - 100)%Q /\
   transform button_started [] 1000 (Some (300, 240)%Z)
     = (button_started, [(300, 240)%Z])) /\
  ((10 <= 5000 - 0)%Q /\
   transform {| task := "Hold Steady"; start_time := Some 0%Q; tracking := true |}
             [] 5000 (Some (300, 240)%Z)
     = ({| task := "Hold Steady"; start_time := Some 0%Q; tracking := true |},
        [(300, 240)%Z])).
Proof.
  repeat split; vm_compute; try reflexivity; discriminate.
Qed.

(** ** C9 *)

Lemma on_frame_tracking_other_task self pts now hand :
  task self <> "Hold Steady" -> tracking self = true ->
  on_frame {| points := pts; video_transformer := Some self |} now hand
    = {| points := pts ++ option_list hand; video_transformer := Some self |}.
Proof.
  intros Ht Htr. unfold on_frame. simpl.
  rewrite (transform_other_task _ _ _ _ Ht), Htr. reflexivity.
Qed.

Lemma on_frames_tracking_other_task self frames pts :
  task self <> "Hold Steady" -> tracking self = true ->
  on_frames {| points := pts; video_transformer := Some self |} frames
    = {| points := pts ++ omap snd frames; video_transformer := Some self |}.
Proof.
  intros Ht Htr. revert pts.
  induction frames as [|[now hand] frames IH]; intros pts.
  - simpl. rewrite app_nil_r. reflexivity.
  - unfold on_frames. simpl. fold (on_frames).
    rewrite (on_frame_tracking_other_task _ _ _ _ Ht Htr).
    change (foldl (fun w '(now, hand) => on_frame w now hand) ?w frames)
      with (on_frames w frames).
    rewrite IH. destruct hand as [p|]; simpl.
    + rewrite <- app_assoc. reflexivity.
    + rewrite app_nil_r. reflexivity.
Qed.

(** C9.  The 10-second check of [transform] is under
    [if self.task == "Hold Steady"]: with any other task a frame never
    closes the window.  In particular, once the start button was clicked
    while the select box shows another task, tracking is on with that task,
    and every later frame, whatever its time stamp, appends its detected
    point: after any sequence of frames the buffer holds all detected points
    in order and tracking is still on. *)
Theorem no_auto_close_outside_hold_steady
    (w : world) (self : DexterityTransformer) (selected : string) (t1 t2 : Q)
    (frames : list (Q * option point)) :
  video_transformer w = Some self ->
  selected <> "Hold Steady" ->
  let started := {| task := selected; start_time := Some t2; tracking := true |} in
  (forall other pts now hand,
     task other <> "Hold Steady" ->
     transform other pts now hand
       = (other, if tracking other then pts ++ option_list hand else pts)) /\
  (run w selected true false t1 t2).1
    = {| points := []; video_transformer := Some started |} /\
  on_frames (run w selected true false t1 t2).1 frames
    = {| points := omap snd frames; video_transformer := Some started |}.
Proof.
  intros Hw Hsel started.
  assert (Hrun : (run w selected true false t1 t2).1
                 = {| points := []; video_transformer := Some started |}).
  { unfold run, set_task. rewrite Hw.
    rewrite bool_decide_eq_false_2 by exact Hsel. reflexivity. }
  split; [intros other pts now hand Ho; apply transform_other_task, Ho|].
  split; [exact Hrun|].
  rewrite Hrun. apply (on_frames_tracking_other_task started frames []).
  - exact Hsel.
  - reflexivity.
Qed.

Lemma no_auto_close_outside_hold_steady_witness :
  let started := {| task := "None"; start_time := Some 100%Q; tracking := true |} in
  let frames := [(101%Q, Some (300, 240)%Z); (500%Q, None); (1000%Q, Some (340, 240)%Z)] in
  (forall other pts now hand,
     task other <> "Hold Steady" ->
     transform other pts now hand
       = (other, if tracking other then pts ++ option_list hand else pts)) /\
  (run streaming "None" true false 100 100).1
    = {| points := []; video_transformer := Some started |} /\
  on_frames (run streaming "None" true false 100 100).1 frames
    = {| points := omap snd frames; video_transformer := Some started |}.
Proof.
  apply (no_auto_close_outside_hold_steady streaming init "None" 100 100
           [(101%Q, Some (300, 240)%Z); (500%Q, None); (1000%Q, Some (340, 240)%Z)]).
  - reflexivity.
  - discriminate.
Defined.

(** ** C3 *)

(** C3, as the code has it.  The frame that closes the capture window leaves
    the trajectory buffer as it is (only [set_task("Hold Steady")] and the
    start button empty it).  A later "Analyze Results" click with the select
    box on another task analyses exactly the points collected before the
    close; with the select box still on "Hold Steady" the script run first
    restarts the capture, which empties the buffer, and the analysis reports
    that there is no data. *)
Theorem window_close_keeps_buffer
    (self : DexterityTransformer) (pts : list point) (now t0 : Q)
    (hand : option point) :
  task self = "Hold Steady" -> start_time self = Some t0 ->
  ~ (t0 == 0)%Q -> (10 < now - t0)%Q ->
  let closed := on_frame {| points := pts; video_transformer := Some self |} now hand in
  closed = {| points := pts; video_transformer := Some init |} /\
  (forall selected t1 t2, selected <> "Hold Steady" ->
     (run closed selected false true t1 t2).2 = Some (analyze pts)) /\
  (forall t1 t2,
     (run closed "Hold Steady" false true t1 t2).2 = Some NoTrackingData).
Proof.
  intros Ht Hs Hz Hlt closed.
  assert (Hc : closed = {| points := pts; video_transformer := Some init |}).
  { unfold closed, on_frame. simpl.
    rewrite (transform_closing self pts now hand Ht); [reflexivity|].
    apply expired_iff. exists t0. auto. }
  split; [exact Hc|]. rewrite Hc. split.
  - intros selected t1 t2 Hsel. unfold run, set_task. simpl.
    rewrite bool_decide_eq_false_2 by exact Hsel. reflexivity.
  - intros t1 t2. reflexivity.
Qed.

Lemma window_close_keeps_buffer_witness :
  let closed := on_frame {| points := [(300, 240)%Z];
                            video_transformer := Some holding |}
                         111 (Some (340, 240)%Z) in
  closed = {| points := [(300, 240)%Z]; video_transformer := Some init |} /\
  (forall selected t1 t2, selected <> "Hold Steady" ->
     (run closed selected false true t1 t2).2 = Some (analyze [(300, 240)%Z])) /\
  (forall t1 t2,
     (run closed "Hold Steady" false true t1 t2).2 = Some NoTrackingData).
Proof.
  apply (window_close_keeps_buffer holding [(300, 240)%Z] 111 100
           (Some (340, 240)%Z)).
  - reflexivity.
  - reflexivity.
  - intros E. vm_compute in E. discriminate.
  - vm_compute. reflexivity.
Defined.

(** C3 fails as stated.  A capture is started with "Hold Steady" at time
    100, one point is collected at 101, and the frame at 111 closes the
    window.  The buffer still holds the point; after the operator switches
    the select box to "None", a click on "Analyze Results" computes the
    statistics of that point, with no fresh start of a capture in between. *)
Lemma stale_points_analysed_after_close :
  let w1 := (run streaming "Hold Steady" false false 100 100).1 in
  let w2 := on_frames w1 [(101%Q, Some (300, 240)%Z); (111%Q, Some (340, 240)%Z)] in
  let w3 := (run w2 "None" false false 120 120).1 in
  let shown := (run w3 "None" false true 125 125).2 in
  w1 = {| points := []; video_transformer := Some holding |} /\
  w2 = {| points := [(300, 240)%Z]; video_transformer := Some init |} /\
  points w3 = [(300, 240)%Z] /\
  shown = Some (AnalysisResults (steadiness_score [(300, 240)%Z])
                                (precision_score [(300, 240)%Z])) /\
  shown <> Some NoTrackingData.
Proof.
  intros w1 w2 w3 shown.
  assert (E1 : w1 = {| points := []; video_transformer := Some holding |})
    by (vm_compute; reflexivity).
  assert (E2 : w2 = {| points := [(300, 240)%Z]; video_transformer := Some init |})
    by (vm_compute; reflexivity).
  assert (E3 : w3 = {| points := [(300, 240)%Z]; video_transformer := Some init |})
    by (subst w3; rewrite E2; reflexivity).
  assert (E4 : shown = Some (analyze [(300, 240)%Z]))
    by (subst shown; rewrite E3; reflexivity).
  split; [exact E1|].
  split; [exact E2|].
  split; [rewrite E3; reflexivity|].
  split; [rewrite E4; reflexivity|rewrite E4; discriminate].
Qed.

(* --------------------------------------------------------------------- *)
(** * Further properties of the dexterity tool *)

(** ** The live target feedback *)

Lemma sqrt_le_iff_square (n r : Z) :
  (0 <= n)%Z -> (0 <= r)%Z ->
  (sqrt (IZR n) <= IZR r)%R <-> (n <= r * r)%Z.
Proof.
  intros Hn Hr.
  assert (Hrn : (0 <= IZR r)%R) by (apply IZR_le; exact Hr).
  assert (Hnn : (0 <= IZR n)%R) by (apply IZR_le; exact Hn).
  rewrite <- (sqrt_square (IZR r)) at 1 by exact Hrn.
  rewrite <- mult_IZR. split.
  - intros Hle. apply le_IZR.
    apply sqrt_le_0; [exact Hnn|apply IZR_le; nia|exact Hle].
  - intros Hle. apply sqrt_le_1; [exact Hnn|apply IZR_le; nia|apply IZR_le, Hle].
Qed.

(** The target is drawn green exactly when the squared pixel distance of
    the fingertip from (320, 240) is at most 400: the border of the circle of
    radius 20 counts as inside. *)
Theorem target_green_iff (p : point) :
  target_colour p = Green <->
  ((p.1 - 320) ^ 2 + (p.2 - 240) ^ 2 <= 400)%Z.
Proof.
  unfold target_colour, distance_to_target, TARGET_POS, TARGET_RADIUS. simpl fst. simpl snd.
  destruct (Rle_dec _ _) as [Hle|Hgt].
  - apply sqrt_le_iff_square in Hle; [|nia|lia]. split; [intros _; lia|reflexivity].
  - split; [discriminate|]. intros Hsq. exfalso. apply Hgt.
    apply sqrt_le_iff_square; [nia|lia|lia].
Qed.

Lemma after_expiry_transform self pts now hand :
  (transform self pts now hand).1 = after_expiry self now.
Proof.
  unfold transform, after_expiry.
  destruct (bool_decide _), (expired self now), hand; simpl;
    try destruct (tracking self); reflexivity.
Qed.

(** The filled target, green or red, is drawn exactly on the frames of a
    "Hold Steady" capture that is tracking, has not run out, and shows a
    hand; its colour is the one of the fingertip. *)
Theorem feedback_drawn_iff
    (self : DexterityTransformer) (now : Q) (hand : option point) (c : colour) :
  TargetFilled c ∈ overlay self now hand <->
  exists p, hand = Some p /\ c = target_colour p /\
            task self = "Hold Steady" /\ tracking self = true /\
            expired self now = false.
Proof.
  unfold overlay, after_expiry.
  destruct (decide (task self = "Hold Steady")) as [Ht|Ht].
  - rewrite (bool_decide_eq_true_2 _ Ht).
    destruct (expired self now) eqn:He; simpl.
    + split.
      * destruct hand; intros Hin; apply list_elem_of_In in Hin; simpl in Hin;
          intuition discriminate.
      * intros (p & _ & _ & _ & _ & [=]).
    + destruct hand as [p|]; simpl.
      * destruct (tracking self) eqn:Htr.
        -- rewrite (bool_decide_eq_true_2 _ Ht). split.
           ++ intros Hin. apply list_elem_of_In in Hin. simpl in Hin.
              destruct Hin as [[=]|[[=]|[[= <-]|[]]]]. exists p. auto.
           ++ intros (q & [= <-] & -> & _). apply list_elem_of_In. simpl. auto.
        -- split.
           ++ intros Hin. apply list_elem_of_In in Hin. simpl in Hin.
              intuition discriminate.
           ++ intros (q & _ & _ & _ & [=] & _).
      * split.
        -- intros Hin. apply list_elem_of_In in Hin. simpl in Hin.
           intuition discriminate.
        -- intros (q & [=] & _).
  - rewrite (bool_decide_eq_false_2 _ Ht). simpl. split.
    + destruct hand as [p|]; [destruct (tracking self)|];
        intros Hin; apply list_elem_of_In in Hin; simpl in Hin;
        try rewrite (bool_decide_eq_false_2 _ Ht) in Hin; simpl in Hin;
        intuition discriminate.
    + intros (p & _ & _ & Ht' & _). contradiction.
Qed.

(** ** The buffer across frames *)

Lemma transform_extends self pts now hand :
  exists added, (transform self pts now hand).2 = pts ++ added /\
                (length added <= 1)%nat.
Proof.
  unfold transform.
  destruct hand as [p|]; [destruct (tracking _)|]; simpl.
  - exists [p]. auto.
  - exists []. rewrite app_nil_r. auto.
  - exists []. rewrite app_nil_r. auto.
Qed.

Lemma on_frame_extends w now hand :
  exists added, points (on_frame w now hand) = points w ++ added /\
                (length added <= 1)%nat.
Proof.
  unfold on_frame. destruct (video_transformer w) as [self|].
  - destruct (transform_extends self (points w) now hand) as (added & E & Hlen).
    destruct (transform self (points w) now hand) as [self' pts'].
    simpl in *. eauto.
  - exists []. rewrite app_nil_r. auto.
Qed.

Lemma on_frames_cons w now hand frames :
  on_frames w ((now, hand) :: frames) = on_frames (on_frame w now hand) frames.
Proof. reflexivity. Qed.

(** Frames only ever append: whatever the transformer state and the
    frames, the buffer before is a prefix of the buffer after, and it grows
    by at most one point per frame. *)
Theorem frames_only_append (w : world) (frames : list (Q * option point)) :
  points w `prefix_of` points (on_frames w frames) /\
  (length (points (on_frames w frames)) <= length (points w) + length frames)%nat.
Proof.
  revert w. induction frames as [|[now hand] frames IH]; intros w.
  - simpl. split; [reflexivity|lia].
  - rewrite on_frames_cons.
    destruct (on_frame_extends w now hand) as (added & E & Hlen).
    destruct (IH (on_frame w now hand)) as [Hpre Hl].
    rewrite E in Hpre, Hl. rewrite length_app in Hl. split.
    + etrans; [|exact Hpre]. apply prefix_app_r. reflexivity.
    + simpl. lia.
Qed.

Lemma on_frame_not_tracking self pts now hand :
  tracking self = false ->
  exists self',
    on_frame {| points := pts; video_transformer := Some self |} now hand
      = {| points := pts; video_transformer := Some self' |} /\
    tracking self' = false.
Proof.
  intros Htr. unfold on_frame. simpl.
  destruct (transform_not_tracking self pts now hand Htr) as [Hp Ht].
  destruct (transform self pts now hand) as [self' pts']. simpl in *.
  subst pts'. eauto.
Qed.

(** No frame reopens a closed window: once tracking is off, any number of
    frames leaves the buffer as it is and tracking off. *)
Theorem closed_window_stays_closed
    (self : DexterityTransformer) (pts : list point)
    (frames : list (Q * option point)) :
  tracking self = false ->
  exists self',
    on_frames {| points := pts; video_transformer := Some self |} frames
      = {| points := pts; video_transformer := Some self' |} /\
    tracking self' = false.
Proof.
  revert self. induction frames as [|[now hand] frames IH]; intros self Htr.
  - exists self. auto.
  - rewrite on_frames_cons.
    destruct (on_frame_not_tracking self pts now hand Htr) as (self1 & -> & Htr1).
    apply IH, Htr1.
Qed.

Lemma closed_window_stays_closed_witness :
  exists self',
    on_frames {| points := [(300, 240)%Z]; video_transformer := Some init |}
              [(101%Q, Some (340, 240)%Z); (102%Q, None)]
      = {| points := [(300, 240)%Z]; video_transformer := Some self' |} /\
    tracking self' = false.
Proof.
  apply (closed_window_stays_closed init [(300, 240)%Z]
           [(101%Q, Some (340, 240)%Z); (102%Q, None)]).
  reflexivity.
Defined.

(** ** A whole "Hold Steady" capture *)

Lemma Qlt_bool_iff (a b : Q) : Qlt_bool a b = true <-> (a < b)%Q.
Proof.
  unfold Qlt_bool. rewrite negb_true_iff. split.
  - intros E. apply Qnot_le_lt. intros Hle. apply Qle_bool_iff in Hle. congruence.
  - intros Hlt. destruct (Qle_bool b a) eqn:E; [|reflexivity].
    apply Qle_bool_iff in E. exfalso. apply (Qlt_not_le _ _ Hlt E).
Qed.

Lemma expired_started self now t0 :
  start_time self = Some t0 -> ~ (t0 == 0)%Q ->
  expired self now = Qlt_bool 10 (now - t0).
Proof.
  intros Hs Hz. unfold expired, truthy. rewrite Hs.
  destruct (Qeq_bool t0 0) eqn:E; [|reflexivity].
  apply Qeq_bool_iff in E. contradiction.
Qed.

Lemma on_frames_init pts frames :
  on_frames {| points := pts; video_transformer := Some init |} frames
    = {| points := pts; video_transformer := Some init |}.
Proof.
  induction frames as [|[now hand] frames IH]; [reflexivity|].
  rewrite on_frames_cons. unfold on_frame. simpl.
  rewrite transform_other_task by discriminate. simpl. exact IH.
Qed.

(** A "Hold Steady" capture with a non-zero start time collects the
    detected points of the frames up to the first frame later than 10
    seconds after the start, and nothing after it, however many frames
    follow and whatever their time stamps. *)
Theorem capture_collects_open_frames
    (self : DexterityTransformer) (pts : list point) (t0 : Q)
    (frames : list (Q * option point)) :
  task self = "Hold Steady" -> tracking self = true ->
  start_time self = Some t0 -> ~ (t0 == 0)%Q ->
  on_frames {| points := pts; video_transformer := Some self |} frames
    = {| points := pts ++ omap snd (open_frames t0 frames);
         video_transformer :=
           Some (if all_in_window t0 frames then self else init) |}.
Proof.
  intros Ht Htr Hs Hz. revert pts.
  induction frames as [|[now hand] frames IH]; intros pts.
  - simpl. rewrite app_nil_r. reflexivity.
  - rewrite on_frames_cons. unfold on_frame. simpl video_transformer.
    simpl points. simpl open_frames. simpl all_in_window.
    pose proof (expired_started self now t0 Hs Hz) as He.
    destruct (Qlt_bool 10 (now - t0)) eqn:Hlate.
    + rewrite (transform_closing self pts now hand Ht He).
      rewrite on_frames_init. simpl. rewrite app_nil_r. reflexivity.
    + rewrite (transform_open self pts now hand Ht He), Htr.
      rewrite IH. simpl. f_equal.
      destruct hand as [p|]; simpl.
      * rewrite <- app_assoc. reflexivity.
      * rewrite app_nil_r. reflexivity.
Qed.

Lemma capture_collects_open_frames_witness :
  on_frames {| points := []; video_transformer := Some holding |}
            [(101%Q, Some (300, 240)%Z); (111%Q, Some (340, 240)%Z);
             (105%Q, Some (310, 240)%Z)]
    = {| points := [] ++ omap snd (open_frames 100
                      [(101%Q, Some (300, 240)%Z); (111%Q, Some (340, 240)%Z);
                       (105%Q, Some (310, 240)%Z)]);
         video_transformer :=
           Some (if all_in_window 100
                      [(101%Q, Some (300, 240)%Z); (111%Q, Some (340, 240)%Z);
                       (105%Q, Some (310, 240)%Z)]
                 then holding else init) |}.
Proof.
  apply (capture_collects_open_frames holding [] 100).
  - reflexivity.
  - reflexivity.
  - reflexivity.
  - intros E. vm_compute in E. discriminate.
Defined.

Lemma on_frames_never_expiring self frames pts :
  tracking self = true -> (forall now, expired self now = false) ->
  on_frames {| points := pts; video_transformer := Some self |} frames
    = {| points := pts ++ omap snd frames; video_transformer := Some self |}.
Proof.
  intros Htr Hexp. revert pts.
  induction frames as [|[now hand] frames IH]; intros pts.
  - simpl. rewrite app_nil_r. reflexivity.
  - rewrite on_frames_cons. unfold on_frame. simpl video_transformer. simpl points.
    cbv beta iota.
    assert (E : transform self pts now hand = (self, pts ++ option_list hand)).
    { destruct (decide (task self = "Hold Steady")) as [Ht|Ht].
      - rewrite (transform_open _ _ _ _ Ht (Hexp now)), Htr. reflexivity.
      - rewrite (transform_other_task _ _ _ _ Ht), Htr. reflexivity. }
    rewrite E, IH. f_equal. destruct hand as [p|]; simpl.
    + rewrite <- app_assoc. reflexivity.
    + rewrite app_nil_r. reflexivity.
Qed.

(** The expiry test reads [self.start_time] as a truth value, and 0.0 is
    false: a "Hold Steady" capture started while the clock reads 0 never
    closes, every detected point of every later frame is appended. *)
Theorem capture_started_at_zero_never_closes
    (w : world) (self : DexterityTransformer) (t1 t2 : Q)
    (frames : list (Q * option point)) :
  video_transformer w = Some self ->
  (t1 == 0)%Q ->
  on_frames (run w "Hold Steady" false false t1 t2).1 frames
    = {| points := omap snd frames;
         video_transformer :=
           Some {| task := "Hold Steady"; start_time := Some t1; tracking := true |} |}.
Proof.
  intros Hw Hz.
  assert (Hrun : (run w "Hold Steady" false false t1 t2).1
                 = {| points := [];
                      video_transformer :=
                        Some {| task := "Hold Steady"; start_time := Some t1;
                                tracking := true |} |}).
  { unfold run, set_task. rewrite Hw. reflexivity. }
  rewrite Hrun. rewrite on_frames_never_expiring; [reflexivity|reflexivity|].
  intros now. unfold expired, truthy. simpl.
  rewrite (proj2 (Qeq_bool_iff t1 0) Hz). reflexivity.
Qed.

Lemma capture_started_at_zero_never_closes_witness :
  on_frames (run streaming "Hold Steady" false false 0 0).1
            [(5%Q, Some (300, 240)%Z); (5000%Q, Some (340, 240)%Z)]
    = {| points := omap snd [(5%Q, Some (300, 240)%Z); (5000%Q, Some (340, 240)%Z)];
         video_transformer :=
           Some {| task := "Hold Steady"; start_time := Some 0%Q; tracking := true |} |}.
Proof.
  apply (capture_started_at_zero_never_closes streaming init 0 0).
  - reflexivity.
  - reflexivity.
Defined.

(** ** Script runs *)

(** With the stream playing and "Hold Steady" in the select box, every
    script run restarts the capture: the buffer is emptied, tracking is on
    from the latest clock reading, and a click on "Analyze Results" in that
    run reports that there is no data, whatever the buffer held. *)
Theorem hold_steady_run_restarts
    (w : world) (self : DexterityTransformer)
    (start_clicked analyze_clicked : bool) (t1 t2 : Q) :
  video_transformer w = Some self ->
  run w "Hold Steady" start_clicked analyze_clicked t1 t2 =
    ({| points := [];
        video_transformer :=
          Some {| task := "Hold Steady";
                  start_time := Some (if start_clicked then t2 else t1);
                  tracking := true |} |},
     if analyze_clicked then Some NoTrackingData else None).
Proof.
  intros Hw. unfold run, set_task. rewrite Hw. simpl.
  destruct start_clicked, analyze_clicked; reflexivity.
Qed.

Lemma hold_steady_run_restarts_witness :
  run {| points := [(300, 240)%Z]; video_transformer := Some init |}
      "Hold Steady" false true 100 100 =
    ({| points := [];
        video_transformer :=
          Some {| task := "Hold Steady";
                  start_time := Some (if false then 100%Q else 100%Q);
                  tracking := true |} |},
     if true then Some NoTrackingData else None).
Proof.
  apply (hold_steady_run_restarts
           {| points := [(300, 240)%Z]; video_transformer := Some init |} init).
  reflexivity.
Defined.

(** The flow that yields results: with another task than "Hold Steady" in
    the select box, a click on the start button, then any frames, then a
    click on "Analyze Results" shows the statistics of exactly the points
    detected in those frames, in order, and that run switches tracking
    off. *)
Theorem button_capture_then_analyze
    (w : world) (self : DexterityTransformer) (selected : string)
    (t1 t2 t3 t4 : Q) (frames : list (Q * option point)) :
  video_transformer w = Some self ->
  selected <> "Hold Steady" ->
  run (on_frames (run w selected true false t1 t2).1 frames)
      selected false true t3 t4 =
    ({| points := omap snd frames;
        video_transformer :=
          Some {| task := selected; start_time := None; tracking := false |} |},
     Some (analyze (omap snd frames))).
Proof.
  intros Hw Hsel.
  assert (Hrun : (run w selected true false t1 t2).1
                 = {| points := [];
                      video_transformer :=
                        Some {| task := selected; start_time := Some t2;
                                tracking := true |} |}).
  { unfold run, set_task. rewrite Hw.
    rewrite (bool_decide_eq_false_2 _ Hsel). reflexivity. }
  rewrite Hrun.
  rewrite (on_frames_tracking_other_task
             {| task := selected; start_time := Some t2; tracking := true |}
             frames [] Hsel eq_refl).
  unfold run, set_task. simpl.
  rewrite (bool_decide_eq_false_2 _ Hsel). reflexivity.
Qed.

Lemma button_capture_then_analyze_witness :
  run (on_frames (run streaming "None" true false 100 100).1
                 [(101%Q, Some (300, 240)%Z); (130%Q, Some (340, 240)%Z)])
      "None" false true 140 140 =
    ({| points := omap snd [(101%Q, Some (300, 240)%Z); (130%Q, Some (340, 240)%Z)];
        video_transformer :=
          Some {| task := "None"; start_time := None; tracking := false |} |},
     Some (analyze (omap snd [(101%Q, Some (300, 240)%Z);
                              (130%Q, Some (340, 240)%Z)]))).
Proof.
  apply (button_capture_then_analyze streaming init "None" 100 100 140 140).
  - reflexivity.
  - discriminate.
Defined.

(** ** More on the batch statistics *)

Section MoreRealLists.
Open Scope R_scope.

Lemma Rsum_bounds (lo hi : R) (l : list R) :
  Forall (fun x => lo <= x <= hi) l ->
  INR (length l) * lo <= Rsum l <= INR (length l) * hi.
Proof.
  induction 1 as [|x l Hx _ IH].
  - simpl. lra.
  - change (Rsum (x :: l)) with (x + Rsum l).
    change (length (x :: l)) with (S (length l)).
    rewrite S_INR. lra.
Qed.

Lemma np_mean_bounds (lo hi : R) (l : list R) :
  l <> [] -> Forall (fun x => lo <= x <= hi) l -> lo <= np_mean l <= hi.
Proof.
  intros Hne Hl. pose proof (length_pos l Hne) as Hn.
  pose proof (Rsum_bounds lo hi l Hl) as [H1 H2]. unfold np_mean. split.
  - apply Rmult_le_reg_r with (INR (length l)); [exact Hn|].
    replace (Rsum l / INR (length l) * INR (length l)) with (Rsum l)
      by (field; lra). lra.
  - apply Rmult_le_reg_r with (INR (length l)); [exact Hn|].
    replace (Rsum l / INR (length l) * INR (length l)) with (Rsum l)
      by (field; lra). lra.
Qed.

Lemma Rsum_gt (c : R) (l : list R) :
  l <> [] -> Forall (fun x => c < x) l -> INR (length l) * c < Rsum l.
Proof.
  intros Hne Hl. induction Hl as [|x l Hx Hl IH]; [congruence|].
  change (Rsum (x :: l)) with (x + Rsum l).
  change (length (x :: l)) with (S (length l)).
  rewrite S_INR. destruct l as [|y l].
  - simpl. lra.
  - assert (INR (length (y :: l)) * c < Rsum (y :: l)) by (apply IH; discriminate).
    lra.
Qed.

Lemma np_mean_gt (c : R) (l : list R) :
  l <> [] -> Forall (fun x => c < x) l -> c < np_mean l.
Proof.
  intros Hne Hl. pose proof (length_pos l Hne) as Hn.
  pose proof (Rsum_gt c l Hne Hl) as H1. unfold np_mean.
  apply Rmult_lt_reg_r with (INR (length l)); [exact Hn|].
  replace (Rsum l / INR (length l) * INR (length l)) with (Rsum l)
    by (field; lra). lra.
Qed.

Lemma np_std_spread (a b : R) (l : list R) :
  l <> [] -> Forall (fun x => a <= x <= b) l -> np_std l <= b - a.
Proof.
  intros Hne Hl.
  pose proof (np_mean_bounds a b l Hne Hl) as [Hm1 Hm2].
  assert (Hab : a <= b) by lra.
  unfold np_std. rewrite <- (sqrt_square (b - a)) by lra.
  apply sqrt_le_1.
  - apply np_mean_nonneg, squares_nonneg.
  - nra.
  - apply np_mean_bounds with (lo := 0).
    + destruct l; [congruence|discriminate].
    + apply Forall_map. eapply Forall_impl; [exact Hl|].
      intros x [Hx1 Hx2]. simpl.
      assert (Hd : Rabs (x - np_mean l) <= b - a)
        by (apply Rabs_le; lra).
      pose proof (Rabs_pos (x - np_mean l)). nra.
Qed.
End MoreRealLists.

(** The precision score agrees with the live feedback: a non-empty buffer
    whose points were all drawn green has a precision of at most 20, one
    whose points were all drawn red a precision above 20. *)
Theorem precision_matches_feedback (pts : list point) :
  pts <> [] ->
  (Forall (fun p => target_colour p = Green) pts ->
     (precision_score pts <= IZR TARGET_RADIUS)%R) /\
  (Forall (fun p => target_colour p = Red) pts ->
     (IZR TARGET_RADIUS < precision_score pts)%R).
Proof.
  intros Hne.
  assert (Hne' : map distance_to_target pts <> [])
    by (destruct pts; [congruence|discriminate]).
  unfold precision_score. split; intros Hall.
  - apply (np_mean_bounds 0 (IZR TARGET_RADIUS) _ Hne').
    apply Forall_map. eapply Forall_impl; [exact Hall|].
    intros p Hp. simpl. unfold target_colour in Hp.
    destruct (Rle_dec _ _) as [Hle|]; [|discriminate].
    split; [apply sqrt_pos|exact Hle].
  - apply (np_mean_gt _ _ Hne').
    apply Forall_map. eapply Forall_impl; [exact Hall|].
    intros p Hp. simpl. unfold target_colour in Hp.
    destruct (Rle_dec _ _) as [|Hgt]; [discriminate|].
    apply Rnot_le_lt, Hgt.
Qed.

Lemma precision_matches_feedback_witness :
  (Forall (fun p => target_colour p = Green) [(320, 240)%Z] ->
     (precision_score [(320, 240)%Z] <= IZR TARGET_RADIUS)%R) /\
  (Forall (fun p => target_colour p = Red) [(320, 240)%Z] ->
     (IZR TARGET_RADIUS < precision_score [(320, 240)%Z])%R).
Proof.
  apply (precision_matches_feedback [(320, 240)%Z]). discriminate.
Defined.

(** Steadiness is bounded by the spread of the points: when every point of
    a non-empty buffer has its x in [a, b] and its y in [c, d], the
    steadiness score is at most ((b - a) + (d - c)) / 2. *)
Theorem steadiness_bounded_by_spread (a b c d : Z) (pts : list point) :
  pts <> [] ->
  Forall (fun p => (a <= p.1 <= b)%Z /\ (c <= p.2 <= d)%Z) pts ->
  (steadiness_score pts <= (IZR (b - a) + IZR (d - c)) / 2)%R.
Proof.
  intros Hne Hall. rewrite steadiness_score_eq.
  assert (Hx : (np_std (column0 pts) <= IZR b - IZR a)%R).
  { apply np_std_spread; [apply column0_ne, Hne|].
    apply Forall_map. eapply Forall_impl; [exact Hall|].
    intros p [[H1 H2] _]. simpl. split; apply IZR_le; assumption. }
  assert (Hy : (np_std (column1 pts) <= IZR d - IZR c)%R).
  { apply np_std_spread; [apply column1_ne, Hne|].
    apply Forall_map. eapply Forall_impl; [exact Hall|].
    intros p [_ [H1 H2]]. simpl. split; apply IZR_le; assumption. }
  rewrite !minus_IZR. lra.
Qed.

Lemma steadiness_bounded_by_spread_witness :
  (steadiness_score [(300, 240); (340, 250)]%Z
     <= (IZR (340 - 300) + IZR (250 - 240)) / 2)%R.
Proof.
  apply (steadiness_bounded_by_spread 300 340 240 250 [(300, 240); (340, 250)]%Z).
  - discriminate.
  - repeat constructor; simpl; lia.
Defined.

(** ** The path image *)

(** "Analyze Results" never raises: the emptiness test guards [points[0]]
    and [points[-1]].  For a non-empty buffer the image holds the target,
    the line through all points when there are at least two, and the start
    and end dots on the first and the last point; for a single point the two
    dots fall on the same pixel and no line is drawn. *)
Theorem analyze_with_path_total (pts : list point) :
  exists rep img,
    analyze_with_path pts = Ok (rep, img) /\
    rep = analyze pts /\
    (pts = [] -> img = []) /\
    (forall p, pts = [p] -> img = [PathTarget; StartDot p; EndDot p]) /\
    (forall p q rest, pts = p :: q :: rest ->
       exists stop, last pts = Some stop /\
         img = [PathTarget; PathLine pts; StartDot p; EndDot stop]).
Proof.
  destruct pts as [|p [|q rest]].
  - exists NoTrackingData, []. repeat split; try reflexivity; intros; discriminate.
  - do 2 eexists. split; [reflexivity|]. split; [reflexivity|].
    split; [discriminate|]. split; [intros p' [= <-]; reflexivity|].
    intros; discriminate.
  - destruct (last (p :: q :: rest)) as [stop|] eqn:Hlast;
      [|apply last_None in Hlast; discriminate].
    do 2 eexists. split.
    { unfold analyze_with_path, path_image. rewrite Hlast.
      cbn [head mbind result_bind].
      replace (1 <? Z.of_nat (length (p :: q :: rest)))%Z with true
        by (symmetry; apply Z.ltb_lt; simpl; lia).
      reflexivity. }
    split; [reflexivity|]. split; [discriminate|].
    split; [intros; discriminate|].
    intros p' q' rest' [= <- <- <-]. exists stop. split; reflexivity.
Qed.

End NeuroSteadySpec.

(* ===================================================================== *)
(** * Properties of the speech analysis *)
(* ===================================================================== *)

Module DysarthriaSpec.
Import Dysarthria.

(** ** Substring test *)

Lemma prefix_spec (sub s : string) :
  String.prefix sub s = true <-> exists post, s = sub +:+ post.
Proof.
  revert s. induction sub as [|c sub IH]; intros s; simpl.
  - split; [intros _; exists s; reflexivity|]. intros _. destruct s; reflexivity.
  - destruct s as [|d s]; simpl.
    + split; [discriminate|]. intros [post [=]].
    + destruct (Ascii.ascii_dec c d) as [->|Hne].
      * rewrite IH. split.
        -- intros [post ->]. exists post. reflexivity.
        -- intros [post [= ->]]. exists post. reflexivity.
      * split; [discriminate|]. intros [post [= E _]]. congruence.
Qed.

Lemma py_in_nil (sub : string) : py_in sub "" = String.prefix sub "" || false.
Proof. reflexivity. Qed.

Lemma py_in_cons (sub : string) (d : Ascii.ascii) (s : string) :
  py_in sub (String d s) = String.prefix sub (String d s) || py_in sub s.
Proof. reflexivity. Qed.

Lemma py_in_spec (sub s : string) :
  py_in sub s = true <-> exists pre post, s = pre +:+ sub +:+ post.
Proof.
  induction s as [|d s IH]; [rewrite py_in_nil|rewrite py_in_cons].
  - rewrite orb_false_r, prefix_spec. split.
    + intros [post E]. exists "", post. exact E.
    + intros (pre & post & E). destruct pre as [|c pre]; [|discriminate E].
      exists post. exact E.
  - rewrite orb_true_iff, IH, prefix_spec. split.
    + intros [[post E] | (pre & post & E)].
      * exists "", post. exact E.
      * exists (String d pre), post. simpl. rewrite E. reflexivity.
    + intros (pre & post & E). destruct pre as [|c pre].
      * left. exists post. exact E.
      * right. simpl in E. injection E as _ E. exists pre, post. exact E.
Qed.

Section WithToolkit.
Context `{Toolkit}.

(** ** The DDK rate *)

Lemma ddk_rate_of_total (onsets : list float) :
  exists n, ddk_rate_of onsets = Ok n /\
    ((length onsets < 2)%nat -> n = PyInt 0) /\
    ((2 <= length onsets)%nat ->
       exists lo hi, head onsets = Some lo /\ last onsets = Some hi /\
         n = PyFloat (int_div_float (Z.of_nat (length onsets) - 1) (float_sub hi lo))).
Proof.
  unfold ddk_rate_of.
  destruct (Z.ltb_spec 1 (Z.of_nat (length onsets))) as [Hlen|Hlen].
  - destruct onsets as [|lo rest]; [simpl in Hlen; lia|].
    destruct (last (lo :: rest)) as [hi|] eqn:Hlast.
    + unfold last_item, first_item. rewrite Hlast. simpl.
      eexists. split; [reflexivity|]. split; [simpl in *; lia|].
      intros _. exists lo, hi. auto.
    + apply last_None in Hlast. discriminate.
  - exists (PyInt 0). split; [reflexivity|]. split; [reflexivity|lia].
Qed.


(** ** The [try] body and the handler *)

Lemma analyze_speech_body_ok (audio_file : string) (d : list (string * string)) :
  analyze_speech_body audio_file = Ok d ->
  exists mean_pitch jitter shimmer hnr ddk_rate,
    d = metrics mean_pitch jitter shimmer hnr ddk_rate.
Proof.
  unfold analyze_speech_body. unfold mbind at 1, result_bind at 1.
  destruct (parselmouth_Sound audio_file) as [snd|]; [|discriminate].
  unfold mbind at 1, result_bind at 1.
  destruct (To_Pitch snd) as [pitch|]; [|discriminate].
  unfold mbind at 1, result_bind at 1.
  destruct (Pitch_Get_mean pitch) as [mean_pitch|]; [|discriminate].
  unfold mbind at 1, result_bind at 1.
  destruct (To_PointProcess snd) as [point_process|]; [|discriminate].
  unfold mbind at 1, result_bind at 1.
  destruct (Get_jitter_local point_process) as [jitter_local|]; [|discriminate].
  unfold mbind at 1, result_bind at 1.
  destruct (Get_shimmer_local point_process) as [shimmer_local|]; [|discriminate].
  unfold mbind at 1, result_bind at 1.
  destruct (To_Harmonicity snd) as [harmonicity|]; [|discriminate].
  unfold mbind at 1, result_bind at 1.
  destruct (Harmonicity_Get_mean harmonicity) as [hnr|]; [|discriminate].
  unfold mbind at 1, result_bind at 1.
  destruct (librosa_load audio_file) as [[y sr]|]; [|discriminate].
  unfold mbind at 1, result_bind at 1.
  destruct (onset_detect y sr) as [onsets|]; [|discriminate].
  unfold mbind at 1, result_bind at 1.
  destruct (ddk_rate_of onsets) as [ddk_rate|]; [|discriminate].
  intros [= <-]. eauto 10.
Qed.

Lemma metrics_keys mean_pitch jitter shimmer hnr ddk_rate :
  (metrics mean_pitch jitter shimmer hnr ddk_rate).*1 =
    ["Mean Pitch (F0)"; "Jitter (Local)"; "Shimmer (Local)";
     "Harmonics-to-Noise (HNR)"; "DDK Rate"].
Proof. reflexivity. Qed.

Lemma handler_pitch (e : exn) :
  (exists pre post, exn_str e = pre +:+ "Pitch" +:+ post) ->
  analyze_speech_handler e = Ok [("Error", pitch_message)].
Proof.
  intros Hin. apply py_in_spec in Hin. unfold analyze_speech_handler.
  rewrite Hin. reflexivity.
Qed.

Lemma handler_generic (e : exn) :
  ~ (exists pre post, exn_str e = pre +:+ "Pitch" +:+ post) ->
  analyze_speech_handler e = Ok [("Error", "An error occurred: " +:+ exn_str e)].
Proof.
  intros Hin. unfold analyze_speech_handler.
  destruct (py_in "Pitch" (exn_str e)) eqn:E; [|reflexivity].
  apply py_in_spec in E. contradiction.
Qed.

(** ** C10 *)

(** C10.  For every audio file and every behaviour of the libraries,
    [analyze_speech] returns a dictionary and raises nothing.  When the body
    of the [try] succeeds the dictionary is the one with the five formatted
    metrics; when the body raises [e], the dictionary has the single key
    "Error", with the could-not-detect-pitch message when the text of [e]
    contains "Pitch" and the generic message followed by the text otherwise.
    The DDK rate never raises: it is the integer 0 when fewer than two
    onsets were detected. *)
Theorem analyze_speech_total (audio_file : string) :
  exists d : list (string * string),
    analyze_speech audio_file = Ok d /\
    (forall d', analyze_speech_body audio_file = Ok d' ->
       d = d' /\
       d.*1 = ["Mean Pitch (F0)"; "Jitter (Local)"; "Shimmer (Local)";
               "Harmonics-to-Noise (HNR)"; "DDK Rate"] /\
       exists mean_pitch jitter shimmer hnr ddk_rate,
         d = metrics mean_pitch jitter shimmer hnr ddk_rate) /\
    (forall e, analyze_speech_body audio_file = Raise e ->
       ((exists pre post, exn_str e = pre +:+ "Pitch" +:+ post) ->
          d = [("Error", pitch_message)]) /\
       (~ (exists pre post, exn_str e = pre +:+ "Pitch" +:+ post) ->
          d = [("Error", "An error occurred: " +:+ exn_str e)])) /\
    (forall onsets : list float,
       exists n, ddk_rate_of onsets = Ok n /\
         ((length onsets < 2)%nat -> n = PyInt 0)).
Proof.
  unfold analyze_speech, try_except.
  destruct (analyze_speech_body audio_file) as [d0|e0] eqn:Hbody.
  - exists d0. split; [reflexivity|]. split; [|split].
    + intros d' [= <-]. split; [reflexivity|].
      destruct (analyze_speech_body_ok _ _ Hbody)
        as (mean_pitch & jitter & shimmer & hnr & ddk_rate & ->).
      split; [apply metrics_keys|eauto 10].
    + intros e [=].
    + intros onsets. destruct (ddk_rate_of_total onsets) as (n & Hn & H0 & _).
      exists n. auto.
  - destruct (analyze_speech_handler e0) as [d|e1] eqn:Hh.
    + exists d. split; [reflexivity|]. split; [|split].
      * intros d' [=].
      * intros e [= <-]. split; intros Hin.
        -- rewrite (handler_pitch e0 Hin) in Hh. congruence.
        -- rewrite (handler_generic e0 Hin) in Hh. congruence.
      * intros onsets. destruct (ddk_rate_of_total onsets) as (n & Hn & H0 & _).
        exists n. auto.
    + exfalso. unfold analyze_speech_handler in Hh.
      destruct (py_in "Pitch" (exn_str e0)); discriminate.
Qed.

End WithToolkit.

(** ** Two runs with concrete libraries *)

(** Every library call succeeds and three onsets are found. *)
Example analyze_speech_clean_recording :
  @analyze_speech quiet_room "temp_user_audio.wav" =
    Ok [ ("Mean Pitch (F0)", "120.00 Hz");
         ("Jitter (Local)", "50.000 %");
         ("Shimmer (Local)", "300.000 %");
         ("Harmonics-to-Noise (HNR)", "20.00 dB");
         ("DDK Rate", "2.00 syllables/sec") ].
Proof. vm_compute. reflexivity. Qed.

(** The pitch extraction raises. *)
Example analyze_speech_no_pitch :
  @analyze_speech no_voice "temp_user_audio.wav" = Ok [("Error", pitch_message)].
Proof. vm_compute. reflexivity. Qed.

(* --------------------------------------------------------------------- *)
(** * Further properties of the speech page *)

Section PageFacts.
Context `{Toolkit}.

(** ** The analysis on the page *)

Lemma analyze_speech_cases (audio_file : string) :
  (exists mean_pitch jitter shimmer hnr ddk_rate,
     analyze_speech audio_file = Ok (metrics mean_pitch jitter shimmer hnr ddk_rate)) \/
  (exists text, analyze_speech audio_file = Ok [("Error", text)]).
Proof.
  unfold analyze_speech, try_except.
  destruct (analyze_speech_body audio_file) as [d|e] eqn:Hbody.
  - left. destruct (analyze_speech_body_ok _ _ Hbody)
      as (mean_pitch & jitter & shimmer & hnr & ddk_rate & ->). eauto 10.
  - right. unfold analyze_speech_handler.
    destruct (py_in "Pitch" (exn_str e)); eauto.
Qed.

Lemma analyze_clicked_recorded (s : session) :
  audio_recorded s = Some true ->
  exists shown,
    analyze_clicked s =
      Ok ({| audio_recorded := Some false; file_on_disk := false |},
          Subheader :: shown) /\
    ((exists text, shown = [ErrorBox text]) \/
     (exists v1 v2 v3 v4 v5,
        shown = [Metric "Mean Pitch (F0)" v1; Metric "Jitter (Local)" v2;
                 Metric "Shimmer (Local)" v3;
                 Metric "Harmonics-to-Noise (HNR)" v4; Metric "DDK Rate" v5])).
Proof.
  intros Hrec. unfold analyze_clicked. rewrite Hrec.
  destruct (analyze_speech_cases AUDIO_FILENAME)
    as [(mean_pitch & jitter & shimmer & hnr & ddk_rate & ->) | (text & ->)].
  - eexists. split; [reflexivity|].
    right. unfold metrics. simpl. eauto 10.
  - eexists. split; [reflexivity|]. left. eauto.
Qed.

Lemma analyze_clicked_not_recorded (s : session) :
  audio_recorded s <> Some true -> analyze_clicked s = Ok (s, [Warning]).
Proof.
  intros Hrec. unfold analyze_clicked.
  destruct (audio_recorded s) as [[|]|]; [congruence|reflexivity|reflexivity].
Qed.

(** A click on "Analyze Speech" after a recording never raises.  It shows
    the subheader and then either one error box or the five metrics in the
    order of the dictionary; in both cases the audio file is removed and the
    recording is marked as used, so that a second click without a new
    recording only shows the warning and analyses nothing. *)
Theorem analysis_uses_up_recording (s : session) :
  audio_recorded s = Some true ->
  let used := {| audio_recorded := Some false; file_on_disk := false |} in
  exists shown,
    analyze_clicked s = Ok (used, Subheader :: shown) /\
    ((exists text, shown = [ErrorBox text]) \/
     (exists v1 v2 v3 v4 v5,
        shown = [Metric "Mean Pitch (F0)" v1; Metric "Jitter (Local)" v2;
                 Metric "Shimmer (Local)" v3;
                 Metric "Harmonics-to-Noise (HNR)" v4; Metric "DDK Rate" v5])) /\
    run used None true = Ok (used, [Warning]).
Proof.
  intros Hrec used.
  destruct (analyze_clicked_recorded s Hrec) as (shown & E & Hshown).
  exists shown. split; [exact E|]. split; [exact Hshown|].
  unfold run. rewrite analyze_clicked_not_recorded by discriminate.
  reflexivity.
Qed.

Lemma run_keeps_recording_on_disk s recording analyze :
  recording_on_disk s ->
  exists s1 shown,
    run s recording analyze = Ok (s1, shown) /\ recording_on_disk s1.
Proof.
  intros Hinv. unfold run.
  destruct (match recording with
            | Some outcome => record_clicked s outcome
            | None => (s, [])
            end) as [s1 shown1] eqn:Hrec.
  assert (Hinv1 : recording_on_disk s1).
  { destruct recording as [[|e|e left]|]; simpl in Hrec;
      injection Hrec as <- _; unfold recording_on_disk; simpl; auto; discriminate. }
  destruct analyze; [|eauto].
  destruct (decide (audio_recorded s1 = Some true)) as [Hs1|Hs1].
  - destruct (analyze_clicked_recorded s1 Hs1) as (shown & -> & _).
    cbn [mbind result_bind]. do 2 eexists. split; [reflexivity|].
    unfold recording_on_disk. simpl. discriminate.
  - rewrite (analyze_clicked_not_recorded s1 Hs1). cbn [mbind result_bind].
    eauto.
Qed.

Lemma runs_keep_recording_on_disk s clicks :
  recording_on_disk s ->
  exists s', runs s clicks = Ok s' /\ recording_on_disk s'.
Proof.
  revert s. induction clicks as [|[recording analyze] clicks IH]; intros s Hinv.
  - exists s. auto.
  - destruct (run_keeps_recording_on_disk s recording analyze Hinv)
      as (s1 & shown & E & Hinv1).
    simpl. rewrite E. cbn [mbind result_bind]. apply IH, Hinv1.
Qed.

(** Whatever the clicks and however the recordings end, the page never
    raises, and after every script run the recording is marked as usable
    only if the audio file is on disk: the analysis is never started on a
    file the page has removed or failed to write. *)
Theorem page_never_raises
    (file : bool) (clicks : list (option recording_outcome * bool)) :
  exists s', runs (fresh file) clicks = Ok s' /\ recording_on_disk s'.
Proof.
  apply runs_keep_recording_on_disk. unfold recording_on_disk, fresh. simpl.
  discriminate.
Qed.

End PageFacts.

Lemma analysis_uses_up_recording_witness :
  let used := {| audio_recorded := Some false; file_on_disk := false |} in
  exists shown,
    @analyze_clicked quiet_room {| audio_recorded := Some true; file_on_disk := true |}
      = Ok (used, Subheader :: shown) /\
    ((exists text, shown = [ErrorBox text]) \/
     (exists v1 v2 v3 v4 v5,
        shown = [Metric "Mean Pitch (F0)" v1; Metric "Jitter (Local)" v2;
                 Metric "Shimmer (Local)" v3;
                 Metric "Harmonics-to-Noise (HNR)" v4; Metric "DDK Rate" v5])) /\
    @run quiet_room used None true = Ok (used, [Warning]).
Proof.
  apply (@analysis_uses_up_recording quiet_room
           {| audio_recorded := Some true; file_on_disk := true |}).
  reflexivity.
Defined.

End DysarthriaSpec.
